(** * weather_etl.py: the retrying fetcher and the deduplicating CSV writer

    A shallow embedding of [WeatherExtractor] (src/weather_etl.py).  Methods
    that touch the network, the data directory, the clock or the object's
    ledger are computations in a state-and-exception monad; the libraries
    they call (requests, csv, logging, time) are modelled by what the
    methods observe of them. *)

From Stdlib Require Import ZArith QArith Qcanon Ascii String List Lia.
From stdpp Require Import gmap strings list fin_maps pretty.

Local Open Scope string_scope.
Local Open Scope Z_scope.

(** ** Python values *)

(** What [response.json()] returns.  A number carries its exact value and
    whether Python holds it as a float (that only affects how it prints);
    a dict is the list of its items, keys distinct, in insertion order. *)
#[local] Unset Elimination Schemes.
Inductive json : Type :=
| JNull
| JBool (b : bool)
| JNum (is_float : bool) (v : Qc)
| JStr (s : string)
| JArr (items : list json)
| JObj (members : list (string * json)).
#[local] Set Elimination Schemes.

(** The exception classes that can reach one of the handlers of the module. *)
Inductive exn : Type :=
| ConnectTimeout | HTTPError | ReadTimeout | Timeout | ConnectionError
| RequestException | JSONDecodeError
| KeyError | TypeError | AttributeError.

Inductive result (A : Type) : Type :=
| Ok (a : A)
| Raise (e : exn).
Arguments Ok {A} a.
Arguments Raise {A} e.

(** [bool(v)], as in [if data:]. *)
Definition truthy (v : json) : bool :=
  match v with
  | JNull => false
  | JBool b => b
  | JNum _ q => negb (bool_decide (q = Q2Qc 0))
  | JStr s => negb (bool_decide (s = ""))
  | JArr l => negb (bool_decide (l = []))
  | JObj m => match m with [] => false | _ :: _ => true end
  end.

Fixpoint assoc (k : string) (m : list (string * json)) : option json :=
  match m with
  | [] => None
  | (k', v) :: rest => if String.eqb k k' then Some v else assoc k rest
  end.

(** [v[k]] for a string [k]: only a dict can be subscripted by a string. *)
Definition getitem (v : json) (k : string) : result json :=
  match v with
  | JObj m => match assoc k m with Some x => Ok x | None => Raise KeyError end
  | _ => Raise TypeError
  end.

(** [v.get(k, default)]: among JSON values only a dict has [get]. *)
Definition get_default (v : json) (k : string) (default : json) : result json :=
  match v with
  | JObj m => Ok (match assoc k m with Some x => x | None => default end)
  | _ => Raise AttributeError
  end.

(** [s.replace(' ', '_')] and [s.upper()] on byte strings (for [upper], the
    ASCII letters). *)
Fixpoint replace_space (s : string) : string :=
  match s with
  | EmptyString => EmptyString
  | String c rest =>
      String (if Ascii.eqb c " "%char then "_"%char else c) (replace_space rest)
  end.

Definition upper_ascii (c : ascii) : ascii :=
  let n := nat_of_ascii c in
  if (Nat.leb 97 n && Nat.leb n 122)%bool then ascii_of_nat (n - 32) else c.

Fixpoint upper (s : string) : string :=
  match s with
  | EmptyString => EmptyString
  | String c rest => String (upper_ascii c) (upper rest)
  end.

(** [v.replace(' ', '_')]: only a str has [replace]. *)
Definition str_replace (v : json) : result string :=
  match v with
  | JStr s => Ok (replace_space s)
  | _ => Raise AttributeError
  end.

Fixpoint chars (s : string) : list json :=
  match s with
  | EmptyString => []
  | String c rest => JStr (String c EmptyString) :: chars rest
  end.

(** The items a [for] loop draws from [v]: the elements of a list, the keys
    of a dict, the characters of a str; anything else is not iterable. *)
Definition iter (v : json) : result (list json) :=
  match v with
  | JArr l => Ok l
  | JObj m => Ok (map (fun kv => JStr (fst kv)) m)
  | JStr s => Ok (chars s)
  | _ => Raise TypeError
  end.

(** ** Ledger keys *)

(** The first component of a ledger key, up to Python's [==] and [hash]:
    [True == 1 == 1.0], so booleans and numbers are kept by value. *)
Inductive keyval : Type :=
| KNone
| KNum (v : Qc)
| KStr (s : string).

Global Instance keyval_eq_dec : EqDecision keyval.
Proof. solve_decision. Defined.

Global Instance keyval_countable : Countable keyval.
Proof.
  refine (inj_countable'
    (fun k => match k with
              | KNone => inl tt
              | KNum v => inr (inl v)
              | KStr s => inr (inr s)
              end)
    (fun x => match x with
              | inl _ => KNone
              | inr (inl v) => KNum v
              | inr (inr s) => KStr s
              end) _).
  intros [ | v | s]; reflexivity.
Defined.

(** A key [(row['Date'], row['Type'])]. *)
Definition key : Type := keyval * string.

(** Hashing a value for a set lookup; lists and dicts are unhashable. *)
Definition hash_key (v : json) : result keyval :=
  match v with
  | JNull => Ok KNone
  | JBool b => Ok (KNum (Q2Qc (if b then 1 else 0)))
  | JNum _ q => Ok (KNum q)
  | JStr s => Ok (KStr s)
  | JArr _ | JObj _ => Raise TypeError
  end.

(** ** The world the extractor runs in *)

Inductive level : Type := INFO | WARNING | ERROR.

(** One constructor per [logging] call of the module, with the values its
    f-string interpolates. *)
Inductive message : Type :=
| MsgRetrying (attempt no_of_retries : Z) (e : exn) (delay : Z)
| MsgAllRetriesFailed (no_of_retries : Z)
| MsgExceptionType (e : exn)
| MsgExceptionMessage (e : exn)
| MsgStackTrace (e : exn)
| MsgHeaderWritten (city : string)
| MsgFetchFailed (e : exn)
| MsgWrote (mode_upper city : string) (date : json)
| MsgSkippedDuplicate (city : string) (date : json) (mode_upper : string)
| MsgExtractError (mode : string) (e : exn)
| MsgFetchingForecast (city : string)
| MsgFetchingHistory (city date : string).

(** What the process does to the outside, oldest first. *)
Inductive event : Type :=
| Request (url : string)
| Sleep (seconds : Z)
| Log (lvl : level) (msg : message).

(** What the outside answers.  [remote n url] is the outcome of
    [requests.get(url)], [raise_for_status()] and [json()] for the [n]-th
    request of the process; [py_str] is [str(v)] as [csv] applies it to a
    cell that is neither [None] nor a str; [today] is the ordinal of
    [datetime.date.today()] and [strftime_ymd] prints an ordinal as
    [%Y-%m-%d]. *)
Record environment : Type := {
  remote : nat -> string -> result json;
  py_str : json -> string;
  today : Z;
  strftime_ymd : Z -> string
}.

(** [self.api_key] and [self.cities], read from secrets.ini. *)
Record config : Type := {
  api_key : string;
  cities : list string
}.

(** A CSV file as the records [csv.reader] yields for it, each the list of
    its fields; the empty list is the file of size zero.  The lines of a
    file are taken to be terminated, as [csv.writer] leaves them, and its
    fields to be within what the reader accepts. *)
Abbreviation csv_file := (list (list string)).

(** [self.city_records], the data directory, and the trace so far. *)
Record state : Type := {
  city_records : gmap string (gset key);
  files : gmap string csv_file;
  requests_made : nat;
  events : list event
}.

(** ** Computations *)

Definition M (A : Type) : Type := state -> result A * state.

Definition ret {A} (a : A) : M A := fun st => (Ok a, st).

Definition bind {A B} (m : M A) (f : A -> M B) : M B :=
  fun st =>
    match m st with
    | (Ok a, st') => f a st'
    | (Raise e, st') => (Raise e, st')
    end.

Definition lift {A} (r : result A) : M A := fun st => (r, st).

(** [try: m  except <classes handled by h>: ...]; an exception [h] does not
    handle propagates. *)
Definition try_except {A} (m : M A) (h : exn -> option (M A)) : M A :=
  fun st =>
    match m st with
    | (Ok a, st') => (Ok a, st')
    | (Raise e, st') =>
        match h e with
        | Some handler => handler st'
        | None => (Raise e, st')
        end
    end.

Declare Scope monad_scope.
Delimit Scope monad_scope with monad.
Notation "x <- m ;; k" := (bind m (fun x => k))
  (at level 100, m at next level, right associativity) : monad_scope.
Notation "m ;; k" := (bind m (fun _ => k))
  (at level 100, right associativity) : monad_scope.
Local Open Scope monad_scope.

Fixpoint for_each {A} (l : list A) (body : A -> M unit) : M unit :=
  match l with
  | [] => ret tt
  | x :: rest => body x ;; for_each rest body
  end.

Definition emit (e : event) : M unit :=
  fun st =>
    (Ok tt, {| city_records := city_records st; files := files st;
               requests_made := requests_made st;
               events := events st ++ [e] |}).

Definition log (lvl : level) (msg : message) : M unit := emit (Log lvl msg).

(** [time.sleep(delay)] *)
Definition sleep (delay : Z) : M unit := emit (Sleep delay).

Definition set_files (f : gmap string csv_file) : M unit :=
  fun st =>
    (Ok tt, {| city_records := city_records st; files := f;
               requests_made := requests_made st; events := events st |}).

Definition set_city_records (r : gmap string (gset key)) : M unit :=
  fun st =>
    (Ok tt, {| city_records := r; files := files st;
               requests_made := requests_made st; events := events st |}).

Definition get_state : M state := fun st => (Ok st, st).

(** Sequencing of plain results, for code that only reads the payload. *)
Definition result_bind {A B} (r : result A) (f : A -> result B) : result B :=
  match r with
  | Ok a => f a
  | Raise e => Raise e
  end.
Notation "x <~ r ;; k" := (result_bind r (fun x => k))
  (at level 100, r at next level, right associativity) : monad_scope.

(** [range(lo, hi)] *)
Definition py_range (lo hi : Z) : list Z := seqZ lo (hi - lo).

(** ** urllib and csv *)

Definition BASE_WEATHER_API_URL : string := "http://api.weatherapi.com/v1/".
Definition DATA_DIR : string := "weather_data".

Definition hex_digit (n : nat) : ascii :=
  match String.get n "0123456789ABCDEF" with
  | Some c => c
  | None => "0"%char
  end.

Definition is_unreserved (c : ascii) : bool :=
  let n := nat_of_ascii c in
  ((Nat.leb 65 n && Nat.leb n 90) || (Nat.leb 97 n && Nat.leb n 122)
   || (Nat.leb 48 n && Nat.leb n 57)
   || Nat.eqb n 95 || Nat.eqb n 46 || Nat.eqb n 45 || Nat.eqb n 126)%bool.

(** [urllib.parse.quote_plus] on the bytes of a string. *)
Fixpoint quote_plus (s : string) : string :=
  match s with
  | EmptyString => EmptyString
  | String c rest =>
      if is_unreserved c then String c (quote_plus rest)
      else if Ascii.eqb c " "%char then String "+"%char (quote_plus rest)
      else
        let n := nat_of_ascii c in
        String "%"%char
          (String (hex_digit (Nat.div n 16))
             (String (hex_digit (Nat.modulo n 16)) (quote_plus rest)))
  end.

(** [urllib.parse.urlencode] of a dict, given as its items. *)
Fixpoint urlencode (params : list (string * string)) : string :=
  match params with
  | [] => ""
  | [(k, v)] => quote_plus k +:+ "=" +:+ quote_plus v
  | (k, v) :: rest => quote_plus k +:+ "=" +:+ quote_plus v +:+ "&" +:+ urlencode rest
  end.

(** [self.header] *)
Definition header : list string :=
  ["Date"; "Location"; "Country"; "Min_Temp"; "Max_Temp"; "Humidity";
   "Air_Quality"; "Type"].

(** [DATA_DIR / f"{city.replace(' ', '_')}.csv"], for a name that is a
    plain file name: the path is then the directory, a slash and the file
    name (pathlib rewrites a name that has a slash in it, which this does
    not follow). *)
Definition city_file_path (city : string) : string :=
  DATA_DIR +:+ "/" +:+ replace_space city +:+ ".csv".

(** The position [csv.DictReader] reads field [k] from: with a repeated
    field name the last column wins. *)
Fixpoint last_index (k : string) (fieldnames : list string) (i : nat) : option nat :=
  match fieldnames with
  | [] => None
  | f :: rest =>
      match last_index k rest (S i) with
      | Some j => Some j
      | None => if String.eqb f k then Some i else None
      end
  end.

(** [row.get(k)] for the dict [DictReader] builds from a record: a record
    shorter than the header yields [None] for the missing fields. *)
Definition reader_get (fieldnames record : list string) (k : string) : option string :=
  match last_index k fieldnames 0 with
  | Some i => nth_error record i
  | None => None
  end.

Definition is_blank (record : list string) : bool :=
  match record with [] => true | _ :: _ => false end.

(** The rows of [csv.DictReader(f)]: the first record names the fields,
    blank records are skipped. *)
Definition dict_reader (content : csv_file) : list (string -> option string) :=
  match content with
  | [] => []
  | fieldnames :: records =>
      map (reader_get fieldnames) (List.filter (fun r => negb (is_blank r)) records)
  end.

(** The pair [(row.get('Date'), row.get('Type'))] of every row of a file. *)
Definition file_pairs (content : csv_file) : list (option string * option string) :=
  map (fun row => (row "Date", row "Type")) (dict_reader content).

(** [all(key)] on such a pair, and the key it stands for in the ledger. *)
Definition all_truthy (p : option string * option string) : bool :=
  match p with
  | (Some d, Some t) => (negb (String.eqb d "") && negb (String.eqb t ""))%bool
  | _ => false
  end.

Definition stored_key (p : option string * option string) : key :=
  (match fst p with Some d => KStr d | None => KNone end,
   match snd p with Some t => t | None => "" end).

(** Lines 85-88: the loop that fills a fresh ledger from the file, for a
    file the reader gets through. *)
Definition read_ledger (content : csv_file) : gset key :=
  foldl (fun ledger p => if all_truthy p then ledger ∪ {[stored_key p]} else ledger)
        ∅ (file_pairs content).

(** The dict [row] of lines 93-102. *)
Record row : Type := {
  Date : json;
  Location : json;
  Country : json;
  Min_Temp : json;
  Max_Temp : json;
  Humidity : json;
  Air_Quality : json;
  Type_ : string
}.

Definition build_row (data : json) (mode : string) (day_data : json) : result row :=
  day <~ getitem day_data "day" ;;
  date <~ getitem day_data "date" ;;
  location <~ getitem data "location" ;;
  name <~ getitem location "name" ;;
  location' <~ getitem data "location" ;;
  country <~ getitem location' "country" ;;
  mintemp_c <~ getitem day "mintemp_c" ;;
  maxtemp_c <~ getitem day "maxtemp_c" ;;
  avghumidity <~ getitem day "avghumidity" ;;
  current <~ get_default data "current" (JObj []) ;;
  air_quality <~ get_default current "air_quality" (JObj []) ;;
  co <~ get_default air_quality "co" (JStr "N/A") ;;
  Ok {| Date := date; Location := name; Country := country;
        Min_Temp := mintemp_c; Max_Temp := maxtemp_c; Humidity := avghumidity;
        Air_Quality := co; Type_ := upper mode |}.

Section Extractor.

Variable E : environment.
Variable self : config.

(** The text [csv.writer] puts in a cell. *)
Definition csv_cell (v : json) : string :=
  match v with
  | JNull => ""
  | JStr s => s
  | _ => py_str E v
  end.

(** [DictWriter(file, fieldnames=self.header).writerow(row)] *)
Definition record_of_row (r : row) : list string :=
  map csv_cell
    [Date r; Location r; Country r; Min_Temp r; Max_Temp r; Humidity r;
     Air_Quality r; JStr (Type_ r)].

(** ** retry (lines 28-45) *)

Definition retryable (e : exn) : bool :=
  match e with
  | ConnectTimeout | HTTPError | ReadTimeout | Timeout | ConnectionError => true
  | _ => false
  end.

(** The [for attempt in ...] loop of [wrapper], over the attempts left. *)
Fixpoint retry_loop (no_of_retries : Z) (backoff : bool) (func : M json)
    (attempts : list Z) (delay : Z) : M json :=
  match attempts with
  | [] =>
      log ERROR (MsgAllRetriesFailed no_of_retries) ;;
      ret JNull
  | attempt :: rest =>
      try_except func (fun e =>
        if retryable e then
          Some (log WARNING (MsgRetrying attempt no_of_retries e delay) ;;
                sleep delay ;;
                retry_loop no_of_retries backoff func rest
                  (if backoff then delay * 2 else delay))
        else None)
  end.

Definition retry (no_of_retries initial_delay : Z) (backoff : bool) (func : M json) : M json :=
  retry_loop no_of_retries backoff func (py_range 1 (no_of_retries + 1)) initial_delay.

(** ** exception_handling (lines 47-53) *)

Definition exception_handling (e : exn) : M unit :=
  log ERROR (MsgExceptionType e) ;;
  log ERROR (MsgExceptionMessage e) ;;
  log ERROR (MsgStackTrace e).

(** ** create_csv_for_city (lines 55-62) *)

Definition write_file (path : string) (content : csv_file) : M unit :=
  st <- get_state ;;
  set_files (<[path := content]> (files st)).

Definition create_csv_for_city (city : string) : M string :=
  let file_path := city_file_path city in
  st <- get_state ;;
  (match files st !! file_path with
   | Some (_ :: _) => ret tt
   | Some [] | None =>
       write_file file_path [header] ;;
       log INFO (MsgHeaderWritten city)
   end) ;;
  ret file_path.

(** ** fetch_data (lines 64-73) *)

(** [requests.get(url)], [raise_for_status()] and [response.json()]. *)
Definition http_get (url : string) : M json :=
  fun st =>
    (remote E (requests_made st) url,
     {| city_records := city_records st; files := files st;
        requests_made := S (requests_made st);
        events := events st ++ [Request url] |}).

(** The undecorated method: its [except Exception] handles every class. *)
Definition fetch_data_body (url : string) : M json :=
  try_except (http_get url) (fun e =>
    Some (log ERROR (MsgFetchFailed e) ;;
          exception_handling e ;;
          ret JNull)).

Definition fetch_data (url : string) : M json :=
  retry 3 2 true (fetch_data_body url).

(** ** extract_and_write (lines 75-115) *)

(** [open(file_path, 'a')] and one [writerow]: the record comes after
    those of the file, whose last line is terminated; opening is taken to
    succeed. *)
Definition append_record (path : string) (record : list string) : M unit :=
  st <- get_state ;;
  set_files (<[path := (default [] (files st !! path) ++ [record])%list]> (files st)).

(** Lines 80-88. *)
Definition load_city_records (city file_path : string) : M unit :=
  st <- get_state ;;
  match city_records st !! city with
  | Some _ => ret tt
  | None =>
      set_city_records
        (<[city := match files st !! file_path with
                   | Some content => read_ledger content
                   | None => ∅
                   end]> (city_records st))
  end.

(** [self.city_records[city]] *)
Definition ledger_of (city : string) : M (gset key) :=
  st <- get_state ;;
  match city_records st !! city with
  | Some ledger => ret ledger
  | None => lift (Raise KeyError)
  end.

(** The body of the loop over the forecast days (lines 92-112). *)
Definition process_day (data : json) (mode city file_path : string) (day_data : json) : M unit :=
  r <- lift (build_row data mode day_data) ;;
  ledger <- ledger_of city ;;
  date_key <- lift (hash_key (Date r)) ;;
  if bool_decide ((date_key, Type_ r) ∈ ledger) then
    log INFO (MsgSkippedDuplicate city (Date r) (upper mode))
  else
    append_record file_path (record_of_row r) ;;
    log INFO (MsgWrote (upper mode) city (Date r)) ;;
    ledger' <- ledger_of city ;;
    st <- get_state ;;
    set_city_records (<[city := ledger' ∪ {[(date_key, Type_ r)]}]> (city_records st)).

Definition extract_and_write_body (data : json) (mode : string) : M unit :=
  location <- lift (getitem data "location") ;;
  name <- lift (getitem location "name") ;;
  city <- lift (str_replace name) ;;
  file_path <- create_csv_for_city city ;;
  load_city_records city file_path ;;
  forecast <- lift (getitem data "forecast") ;;
  forecast_days <- lift (getitem forecast "forecastday") ;;
  days <- lift (iter forecast_days) ;;
  for_each days (process_day data mode city file_path).

Definition extract_and_write (data : json) (mode : string) : M unit :=
  try_except (extract_and_write_body data mode) (fun e =>
    Some (log ERROR (MsgExtractError mode e) ;;
          exception_handling e)).

(** ** The URL builders and the two passes (lines 117-154) *)

Definition build_forecast_url (city : string) : string :=
  BASE_WEATHER_API_URL +:+ "forecast.json?key=" +:+ api_key self +:+ "&" +:+
  urlencode [("q", city); ("days", "3"); ("aqi", "yes"); ("alerts", "no")].

Definition build_history_url (city date_str : string) : string :=
  BASE_WEATHER_API_URL +:+ "history.json?key=" +:+ api_key self +:+ "&" +:+
  urlencode [("q", city); ("dt", date_str)].

(** One turn of the loop of [run_forecast_etl]. *)
Definition forecast_step (city : string) : M unit :=
  let url := build_forecast_url city in
  log INFO (MsgFetchingForecast city) ;;
  data <- fetch_data url ;;
  if truthy data then extract_and_write data "forecast" else ret tt.

Definition run_forecast_etl_over (cs : list string) : M unit :=
  for_each cs forecast_step.

Definition run_forecast_etl : M unit := run_forecast_etl_over (cities self).

Definition history_step (history_date city : string) : M unit :=
  let url := build_history_url city history_date in
  log INFO (MsgFetchingHistory city history_date) ;;
  data <- fetch_data url ;;
  if truthy data then extract_and_write data "history" else ret tt.

Definition run_history_etl : M unit :=
  for_each (py_range 1 4) (fun i =>
    let history_date := strftime_ymd E (today E - i) in
    for_each (cities self) (history_step history_date)).

Definition main : M unit :=
  run_forecast_etl ;;
  run_history_etl.

End Extractor.

(** ** What a call leaves on disk and in the ledger

    The functional reading of [extract_and_write], used to reason about
    the files and the ledger apart from the trace. *)

(** Lines 77, and 90 with the iteration of line 91. *)
Definition city_of (data : json) : result string :=
  location <~ getitem data "location" ;;
  name <~ getitem location "name" ;;
  str_replace name.

Definition days_of (data : json) : result (list json) :=
  forecast <~ getitem data "forecast" ;;
  forecast_days <~ getitem forecast "forecastday" ;;
  iter forecast_days.

Section Effect.

Variable E : environment.

(** The rows and keys of the days the loop gets through: it stops at the
    first day whose row cannot be built or whose date cannot be hashed. *)
Fixpoint reached (data : json) (mode : string) (days : list json) : list (row * key) :=
  match days with
  | [] => []
  | day_data :: rest =>
      match build_row data mode day_data with
      | Ok r =>
          match hash_key (Date r) with
          | Ok date_key => (r, (date_key, Type_ r)) :: reached data mode rest
          | Raise _ => []
          end
      | Raise _ => []
      end
  end.

(** Of those, the rows that are appended, given the ledger at the start. *)
Fixpoint new_rows (ledger : gset key) (rks : list (row * key)) : list (row * key) :=
  match rks with
  | [] => []
  | (r, k) :: rest =>
      if bool_decide (k ∈ ledger) then new_rows ledger rest
      else (r, k) :: new_rows (ledger ∪ {[k]}) rest
  end.

Definition records_of (rks : list (row * key)) : csv_file :=
  map (fun rk => record_of_row E (fst rk)) rks.

Definition keys_of (rks : list (row * key)) : gset key :=
  list_to_set (map snd rks).

(** The data directory after [create_csv_for_city]. *)
Definition with_header (F : gmap string csv_file) (city : string) : gmap string csv_file :=
  match F !! city_file_path city with
  | Some (_ :: _) => F
  | Some [] | None => <[city_file_path city := [header]]> F
  end.

(** [self.city_records] after lines 80-88. *)
Definition with_ledger (R : gmap string (gset key)) (F : gmap string csv_file)
    (city : string) : gmap string (gset key) :=
  match R !! city with
  | Some _ => R
  | None =>
      <[city := match F !! city_file_path city with
                | Some content => read_ledger content
                | None => ∅
                end]> R
  end.

Definition extract_effect (data : json) (mode : string)
    (R : gmap string (gset key)) (F : gmap string csv_file)
    : gmap string (gset key) * gmap string csv_file :=
  match city_of data with
  | Raise _ => (R, F)
  | Ok city =>
      let F1 := with_header F city in
      let R1 := with_ledger R F1 city in
      match days_of data with
      | Raise _ => (R1, F1)
      | Ok days =>
          let rks := reached data mode days in
          let ledger := default ∅ (R1 !! city) in
          let path := city_file_path city in
          (<[city := ledger ∪ keys_of rks]> R1,
           <[path := (default [] (F1 !! path) ++ records_of (new_rows ledger rks))%list]> F1)
      end
  end.

End Effect.

(** ** Observations on a trace *)

(** The delays of the [time.sleep] calls of a trace, in order. *)
Fixpoint sleeps (evs : list event) : list Z :=
  match evs with
  | [] => []
  | Sleep d :: rest => d :: sleeps rest
  | _ :: rest => sleeps rest
  end.

(** A wrapped function that fails with an allow-listed error whenever it is
    called, and does not sleep itself. *)
Definition always_fails (func : M json) : Prop :=
  forall st, exists e st',
    func st = (Raise e, st') /\ retryable e = true /\
    sleeps (events st') = sleeps (events st).

(** The delay in force at the [k]-th failure, counting from 0. *)
Definition delay_at (backoff : bool) (initial_delay : Z) (k : nat) : Z :=
  if backoff then initial_delay * 2 ^ Z.of_nat k else initial_delay.

(** A state with nothing on disk, nothing in memory, nothing done. *)
Definition initial_state : state :=
  {| city_records := ∅; files := ∅; requests_made := 0; events := [] |}.

(** A function that always times out. *)
Definition always_timeout : M json := fun st => (Raise ConnectTimeout, st).


(** ** Sample data *)

Definition sample_day (date : json) : json :=
  JObj [("date", date);
        ("day", JObj [("mintemp_c", JNum true (Q2Qc 12));
                      ("maxtemp_c", JNum true (Q2Qc 27));
                      ("avghumidity", JNum false (Q2Qc 55))])].

(** A forecast response for Pune without air-quality data. *)
Definition sample_payload (days : list json) : json :=
  JObj [("location", JObj [("name", JStr "Pune"); ("country", JStr "India")]);
        ("forecast", JObj [("forecastday", JArr days)])].

Definition three_days : json :=
  sample_payload [sample_day (JStr "2024-01-01"); sample_day (JStr "2024-01-02");
                  sample_day (JStr "2024-01-03")].

(** [str] on the numbers and booleans of the samples (a value that is not
    integral, which no sample has, is shown as a fraction). *)
Definition sample_str (v : json) : string :=
  match v with
  | JBool true => "True"
  | JBool false => "False"
  | JNum is_float q =>
      let num := pretty (Qnum (this q)) in
      match Qden (this q) with
      | xH => if is_float then num +:+ ".0" else num
      | d => num +:+ "/" +:+ pretty (Z.pos d)
      end
  | _ => ""
  end.

(** Every request is answered with [three_days]. *)
Definition steady : environment :=
  {| remote := fun _ _ => Ok three_days; py_str := sample_str;
     today := 738891; strftime_ymd := fun _ => "2024-01-01" |}.

(** The first two requests time out, the later ones are answered. *)
Definition flaky : environment :=
  {| remote := fun n _ => if Nat.ltb n 2 then Raise ConnectTimeout else Ok three_days;
     py_str := sample_str; today := 738891; strftime_ymd := fun _ => "2024-01-01" |}.

(** No request is ever answered. *)
Definition offline : environment :=
  {| remote := fun _ _ => Raise ConnectionError; py_str := sample_str;
     today := 738891; strftime_ymd := fun _ => "2024-01-01" |}.

Definition pune_only : config := {| api_key := "KEY"; cities := ["Pune"] |}.

(** A row of the Pune file as the writer lays it out. *)
Definition stored_row (date type : string) : list string :=
  [date; "Pune"; "India"; "12.0"; "27.0"; "55"; "N/A"; type].

(** A Pune file with one complete row, one row without a date, and one
    record cut short after its first field. *)
Definition ragged_file : csv_file :=
  [header; stored_row "2024-01-01" "FORECAST"; stored_row "" "FORECAST";
   ["2024-01-05"]].

Definition on_disk (path : string) (content : csv_file) : state :=
  {| city_records := ∅; files := {[path := content]}; requests_made := 0;
     events := [] |}.

(** The value at [current.air_quality.co], when the payload has one. *)
Definition co_of (data : json) : option json :=
  match data with
  | JObj top =>
      match assoc "current" top with
      | Some (JObj current) =>
          match assoc "air_quality" current with
          | Some (JObj air_quality) => assoc "co" air_quality
          | _ => None
          end
      | _ => None
      end
  | _ => None
  end.

(** What a file holds, a missing file holding nothing. *)
Definition content_of (F : gmap string csv_file) (path : string) : csv_file :=
  default [] (F !! path).

(** A process that has the Pune file with one forecast row, and that row's
    key in its ledger. *)
Definition pune_known : state :=
  {| city_records := {["Pune" := {[(KStr "2024-01-01", "FORECAST")]}]};
     files := {[city_file_path "Pune" :=
                  [header; stored_row "2024-01-01" "FORECAST"]]};
     requests_made := 0;
     events := [] |}.

(** Three forecast days, the first two for the same date. *)
Definition repeated_date : json :=
  sample_payload [sample_day (JStr "2024-01-01"); sample_day (JStr "2024-01-01");
                  sample_day (JStr "2024-01-02")].

(** ** Properties of files and payloads *)

(** The pair [DictReader] gives for one record under given field names. *)
Definition pair_of_record (fieldnames record : list string)
    : option string * option string :=
  (reader_get fieldnames record "Date", reader_get fieldnames record "Type").

(** No two rows of the file share their [(Date, Type)] pair. *)
Definition distinct_rows (content : csv_file) : Prop :=
  NoDup (file_pairs content).

(** The file is empty or starts with the header the writer uses. *)
Definition std_file (content : csv_file) : Prop :=
  match content with
  | [] => True
  | fieldnames :: _ => fieldnames = header
  end.

(** The [date] of a forecast day, when it has one, is a non-empty str. *)
Definition date_ok (day_data : json) : bool :=
  match getitem day_data "date" with
  | Ok (JStr s) => negb (String.eqb s "")
  | Ok _ => false
  | Raise _ => true
  end.

Definition dates_ok (data : json) : bool :=
  match days_of data with
  | Ok days => forallb date_ok days
  | Raise _ => true
  end.

(** A sequence of calls on one extractor. *)
Definition run_calls (E : environment) (calls : list (json * string)) : M unit :=
  for_each calls (fun c => extract_and_write E (fst c) (snd c)).

(** A new process on the same data directory: [__init__] starts with an
    empty [city_records]. *)
Definition restart (st : state) : state :=
  {| city_records := ∅; files := files st;
     requests_made := requests_made st; events := events st |}.

(** A forecast whose only day has an empty date, and a network that
    answers every request with it. *)
Definition blank_date : json := sample_payload [sample_day (JStr "")].

Definition blank_dates : environment :=
  {| remote := fun _ _ => Ok blank_date; py_str := sample_str;
     today := 738891; strftime_ymd := fun _ => "2024-01-01" |}.

(** The ledger follows the file at [path]: the file is well formed and its
    rows are distinct, the cities of the ledger are as line 77 makes them,
    and the ledger of the city of that file has the key of every row of
    the file that has one. *)
Definition ledger_tracks (path : string)
    (R : gmap string (gset key)) (F : gmap string csv_file) : Prop :=
  (forall content, F !! path = Some content ->
     std_file content /\ distinct_rows content) /\
  (forall city ledger, R !! city = Some ledger -> replace_space city = city) /\
  (forall city ledger content,
     R !! city = Some ledger -> city_file_path city = path ->
     F !! path = Some content ->
     forall p, p ∈ file_pairs content -> all_truthy p = true -> stored_key p ∈ ledger).

(** What [fetch_data] returns for the [n]-th request of the process. *)
Definition fetched (E : environment) (n : nat) (url : string) : json :=
  match remote E n url with
  | Ok v => v
  | Raise _ => JNull
  end.

(** Every file starts with the header, and every ledger holds only keys
    that its city's file, which exists, gives back when read. *)
Definition ledger_sound (R : gmap string (gset key)) (F : gmap string csv_file) : Prop :=
  (forall path content, F !! path = Some content -> std_file content) /\
  (forall city ledger, R !! city = Some ledger ->
     exists content,
       F !! city_file_path city = Some content /\ content <> [] /\
       ledger ⊆ read_ledger content).

(** Every ledger holds all the keys its city's file gives when read. *)
Definition ledger_covers (R : gmap string (gset key)) (F : gmap string csv_file) : Prop :=
  forall city ledger content,
    R !! city = Some ledger -> F !! city_file_path city = Some content ->
    read_ledger content ⊆ ledger.

(** The files already hold what a call with this payload would write:
    the city's file is there and gives back the key of every day the call
    gets to. *)
Definition recorded (F : gmap string csv_file) (data : json) (mode : string) : Prop :=
  match city_of data with
  | Raise _ => True
  | Ok city =>
      exists content,
        F !! city_file_path city = Some content /\ content <> [] /\
        match days_of data with
        | Raise _ => True
        | Ok days => keys_of (reached data mode days) ⊆ read_ledger content
        end
  end.

(** Every file of [F'] starts with what it holds in [F]. *)
Definition extends (F F' : gmap string csv_file) : Prop :=
  forall path, content_of F path `prefix_of` content_of F' path.

(** The files hold what the unit of work for [url] and [mode] writes, the
    answer to a request being [fetched E 0 url] whenever it is made. *)
Definition unit_done (E : environment) (url mode : string)
    (F : gmap string csv_file) : Prop :=
  truthy (fetched E 0 url) = true -> recorded F (fetched E 0 url) mode.

(** Every request gets an answer that is not JSON. *)
Definition garbled : environment :=
  {| remote := fun _ _ => Raise JSONDecodeError; py_str := sample_str;
     today := 738891; strftime_ymd := fun _ => "2024-01-01" |}.

(** A data directory whose Pune file was made by something else. *)
Definition foreign_file : csv_file := [["when"; "what"]; ["2024-01-01"; "rain"]].

(** A payload without [location]. *)
Definition no_location : json :=
  JObj [("forecast", JObj [("forecastday", JArr [sample_day (JStr "2024-01-01")])])].

(** Three forecast days, the second without its [day] object. *)
Definition broken_middle : json :=
  sample_payload [sample_day (JStr "2024-01-01");
                  JObj [("date", JStr "2024-01-02")];
                  sample_day (JStr "2024-01-03")].

(** Every request is answered with an empty JSON object. *)
Definition empty_object : environment :=
  {| remote := fun _ _ => Ok (JObj []); py_str := sample_str;
     today := 738891; strftime_ymd := fun _ => "2024-01-01" |}.

(** The URLs of the requests of a trace, in order. *)
Fixpoint requests (evs : list event) : list string :=
  match evs with
  | [] => []
  | Request url :: rest => url :: requests rest
  | _ :: rest => requests rest
  end.

(** From [st] to [st'] nothing was requested and nobody slept. *)
Definition only_logs (st st' : state) : Prop :=
  requests_made st' = requests_made st /\
  requests (events st') = requests (events st) /\
  sleeps (events st') = sleeps (events st).

(** A computation that neither requests nor sleeps. *)
Definition quiet {A : Type} (m : M A) : Prop :=
  forall st, only_logs st (snd (m st)).

(** The requests of one run of [main]: the forecast of every city, then
    for each of the three days before today the history of every city. *)
Definition planned_requests (E : environment) (self : config) : list string :=
  (map (build_forecast_url self) (cities self) ++
   concat (map (fun i => map (fun city =>
                                build_history_url self city (strftime_ymd E (today E - i)))
                             (cities self))
               [1; 2; 3]))%list.

(** ** Where the model of the data directory is exact

    [city_file_path] joins by concatenation, [create_csv_for_city] and
    [append_record] open without fail, and a file is the list of records
    [csv.reader] yields for it.  That is how the code behaves when the
    city name is a plain file name (pathlib rewrites a name with [/] in
    it, and [open] fails for a directory that is missing), and for files
    the writer itself has written (every line terminated, so that a new
    record starts a new line) whose fields [csv] reads back (the reader
    gives up at a field above its size limit), in a data directory that
    tells apart names that differ and that can be read and written.  The
    predicates below say so of a name, a cell and a payload; the
    statements that depend on it assume them. *)

Fixpoint has_char (c : ascii) (s : string) : bool :=
  match s with
  | EmptyString => false
  | String c' rest => (Ascii.eqb c c' || has_char c rest)%bool
  end.

(** A city name that is a file name: no [/], no NUL, and short enough for
    [name.csv] to stay within 255 bytes. *)
Definition plain_name (s : string) : bool :=
  (negb (has_char "/"%char s) && negb (has_char "000"%char s)
   && N.leb (N.of_nat (String.length s)) 251)%bool.

(** [csv.field_size_limit()] *)
Definition field_size_limit : N := 131072%N.

(** A cell that [csv.reader] gives back as it was written: within the
    field size limit (in bytes, hence in characters) and without NUL. *)
Definition csv_safe (s : string) : bool :=
  (N.leb (N.of_nat (String.length s)) field_size_limit
   && negb (has_char "000"%char s))%bool.

Definition is_ascii (s : string) : bool :=
  forallb (fun c => Nat.ltb (nat_of_ascii c) 128) (list_ascii_of_string s).

(** The city of the payload, when it has one, is a plain file name. *)
Definition name_ok (data : json) : bool :=
  match city_of data with
  | Ok city => plain_name city
  | Raise _ => true
  end.

(** Every row the payload yields in this mode has cells [csv] reads
    back. *)
Definition cells_ok (E : environment) (mode : string) (data : json) : bool :=
  match days_of data with
  | Ok days =>
      forallb (fun day_data =>
                 match build_row data mode day_data with
                 | Ok r => forallb csv_safe (record_of_row E r)
                 | Raise _ => true
                 end) days
  | Raise _ => true
  end.

(** A call the model is exact for, and that writes rows with a date and a
    type: dates are non-empty strings, the mode is a non-empty ASCII
    string, the city is a plain file name, the cells are read back. *)
Definition call_ok (E : environment) (c : json * string) : bool :=
  (dates_ok (fst c) && negb (String.eqb (snd c) "") && is_ascii (snd c)
   && name_ok (fst c) && cells_ok E (snd c) (fst c))%bool.

(** A response the model is exact for, in either pass. *)
Definition response_ok (E : environment) (data : json) : bool :=
  (dates_ok data && name_ok data
   && cells_ok E "forecast" data && cells_ok E "history" data)%bool.

(** One run of a process: a new extractor, then its calls. *)
Definition run_process (E : environment) (calls : list (json * string))
    (st : state) : state :=
  snd (run_calls E calls (restart st)).

(** Runs one after the other over the same data directory. *)
Definition run_processes (E : environment) (runs : list (list (json * string)))
    (st : state) : state :=
  fold_left (fun s calls => run_process E calls s) runs st.
(** * The retry wrapper *)

Lemma sleeps_app (l1 l2 : list event) :
  sleeps (l1 ++ l2) = (sleeps l1 ++ sleeps l2)%list.
Proof.
  induction l1 as [ | [u | d | lvl msg] l1 IH]; simpl; rewrite ?IH; reflexivity.
Qed.

Lemma delay_at_double (backoff : bool) (d : Z) (k : nat) :
  delay_at backoff (if backoff then d * 2 else d) k = delay_at backoff d (S k).
Proof.
  unfold delay_at. destruct backoff; [ | reflexivity].
  rewrite Nat2Z.inj_succ, Z.pow_succ_r by lia. lia.
Qed.

Lemma retry_loop_exhausted (N : Z) (backoff : bool) (func : M json) :
  always_fails func ->
  forall (attempts : list Z) (d : Z) (st : state),
  exists st',
    retry_loop N backoff func attempts d st = (Ok JNull, st') /\
    sleeps (events st') =
      (sleeps (events st) ++ map (delay_at backoff d) (seq 0 (length attempts)))%list.
Proof.
  intros Hfail attempts.
  induction attempts as [ | attempt rest IH]; intros d st.
  - eexists. split; [reflexivity | ]. simpl.
    rewrite sleeps_app. simpl. reflexivity.
  - destruct (Hfail st) as (e & st1 & Hcall & Hretry & Hsl).
    set (st2 := snd (sleep d (snd (log WARNING (MsgRetrying attempt N e d) st1)))).
    destruct (IH (if backoff then d * 2 else d) st2) as (st' & Hrun & Hsl').
    exists st'. split.
    + simpl. unfold try_except. rewrite Hcall, Hretry. exact Hrun.
    + rewrite Hsl'. subst st2. simpl.
      rewrite !sleeps_app. simpl. rewrite Hsl, app_nil_r, <- app_assoc. simpl.
      f_equal. f_equal.
      * unfold delay_at. destruct backoff; simpl; lia.
      * rewrite <- seq_shift, map_map.
        apply map_ext. intros k. apply delay_at_double.
Qed.

Lemma py_range_length (n : Z) : length (py_range 1 (n + 1)) = Z.to_nat n.
Proof. unfold py_range. rewrite length_seqZ. f_equal. lia. Qed.

(** C8.  When every attempt fails with an allow-listed error, the wrapper
    returns [None] after having slept once per attempt, the last attempt
    included: [no_of_retries] sleeps, not [no_of_retries - 1].  The sleep
    after the [k]-th failure (counting from 0) lasts
    [initial_delay * 2 ^ k] with backoff. *)
Theorem retry_sleeps_after_every_failure
    (no_of_retries initial_delay : Z) (func : M json) (st : state) :
  always_fails func ->
  exists st',
    retry no_of_retries initial_delay true func st = (Ok JNull, st') /\
    sleeps (events st') =
      (sleeps (events st) ++
       map (fun k => initial_delay * 2 ^ Z.of_nat k) (seq 0 (Z.to_nat no_of_retries)))%list /\
    length (sleeps (events st')) =
      (length (sleeps (events st)) + Z.to_nat no_of_retries)%nat.
Proof.
  intros Hfail. unfold retry.
  destruct (retry_loop_exhausted no_of_retries true func Hfail
              (py_range 1 (no_of_retries + 1)) initial_delay st) as (st' & Hrun & Hsl).
  rewrite py_range_length in Hsl.
  exists st'. split; [exact Hrun | ]. split; [exact Hsl | ].
  rewrite Hsl, length_app, length_map, length_seq. reflexivity.
Qed.

Lemma always_timeout_fails : always_fails always_timeout.
Proof. intros st. exists ConnectTimeout, st. repeat split. Qed.

Lemma retry_sleeps_after_every_failure_witness :
  always_fails always_timeout /\
  exists st',
    retry 3 2 true always_timeout initial_state = (Ok JNull, st') /\
    sleeps (events st') = [2; 4; 8] /\
    length (sleeps (events st')) = 3%nat.
Proof.
  split; [exact always_timeout_fails | ].
  destruct (retry_sleeps_after_every_failure 3 2 always_timeout initial_state
              always_timeout_fails) as (st' & Hrun & Hsl & Hlen).
  exists st'. split; [exact Hrun | ]. split; [exact Hsl | exact Hlen].
Defined.

(** * The fetcher *)

Lemma attempts_of_fetch_data : py_range 1 (3 + 1) = [1; 2; 3].
Proof. reflexivity. Qed.

(** [fetch_data] issues one request and returns: the payload when the
    request succeeds, [None] when it raises, whatever the class.  The
    handler inside the method leaves nothing for the wrapper to retry. *)
Lemma fetch_data_one_request (E : environment) (url : string) (st : state) :
  exists st',
    fetch_data E url st =
      (Ok (match remote E (requests_made st) url with
           | Ok v => v
           | Raise _ => JNull
           end), st') /\
    requests_made st' = S (requests_made st) /\
    files st' = files st /\
    city_records st' = city_records st /\
    sleeps (events st') = sleeps (events st).
Proof.
  unfold fetch_data, retry. rewrite attempts_of_fetch_data.
  unfold retry_loop, try_except, fetch_data_body, try_except, http_get.
  destruct (remote E (requests_made st) url) as [v | e].
  - eexists. split; [reflexivity | ]. simpl.
    rewrite sleeps_app, app_nil_r. auto.
  - eexists. split; [reflexivity | ]. simpl.
    rewrite !sleeps_app, !app_nil_r. auto.
Qed.

(** C1.  With a network that times out on the first two requests and
    answers the third, [fetch_data] makes a single request and returns
    [None]; the forecast pass then extracts nothing, where an immediate
    answer yields the payload and its three rows. *)
Theorem fetch_data_does_not_retry :
  let url := build_forecast_url pune_only "Pune" in
  let path := city_file_path "Pune" in
  (remote flaky 0 url = Raise ConnectTimeout /\
   remote flaky 1 url = Raise ConnectTimeout /\
   remote flaky 2 url = Ok three_days) /\
  fst (fetch_data flaky url initial_state) = Ok JNull /\
  requests_made (snd (fetch_data flaky url initial_state)) = 1%nat /\
  sleeps (events (snd (fetch_data flaky url initial_state))) = [] /\
  fst (fetch_data steady url initial_state) = Ok three_days /\
  files (snd (forecast_step flaky pune_only "Pune" initial_state)) !! path = None /\
  length <$> files (snd (forecast_step steady pune_only "Pune" initial_state)) !! path
    = Some 4%nat.
Proof. vm_compute. repeat split; reflexivity. Qed.

Lemma forecast_step_no_data (E : environment) (self : config) (city : string) (st : state) :
  (exists e, remote E (requests_made st) (build_forecast_url self city) = Raise e) ->
  exists st',
    forecast_step E self city st = (Ok tt, st') /\
    files st' = files st /\ city_records st' = city_records st.
Proof.
  intros [e He]. unfold forecast_step, bind, log, emit.
  match goal with
  | |- context [fetch_data E ?u ?s] =>
      destruct (fetch_data_one_request E u s) as (st1 & Hrun & _ & Hf & Hr & _)
  end.
  simpl in Hrun. rewrite He in Hrun. rewrite Hrun. simpl.
  exists st1. auto.
Qed.

Lemma history_step_no_data (E : environment) (self : config)
    (history_date city : string) (st : state) :
  (exists e, remote E (requests_made st) (build_history_url self city history_date)
             = Raise e) ->
  exists st',
    history_step E self history_date city st = (Ok tt, st') /\
    files st' = files st /\ city_records st' = city_records st.
Proof.
  intros [e He]. unfold history_step, bind, log, emit.
  match goal with
  | |- context [fetch_data E ?u ?s] =>
      destruct (fetch_data_one_request E u s) as (st1 & Hrun & _ & Hf & Hr & _)
  end.
  simpl in Hrun. rewrite He in Hrun. rewrite Hrun. simpl.
  exists st1. auto.
Qed.

(** C2.  For every URL: if the three requests that would follow all fail,
    [fetch_data] returns [None] without raising and leaves files and
    ledger as they were.  When the URL is the forecast URL of a city, the
    forecast pass writes nothing for it and goes on with the cities that
    remain; when it is the history URL of a city and a date, the history
    pass writes nothing for that city and date and goes on with the cities
    that remain for that date. *)
Theorem failed_fetch_is_skipped
    (E : environment) (self : config) (url : string) (st : state) :
  (forall k, (k < 3)%nat ->
     exists e, remote E (requests_made st + k) url = Raise e) ->
  (exists st1,
     fetch_data E url st = (Ok JNull, st1) /\
     files st1 = files st /\ city_records st1 = city_records st) /\
  (forall city rest,
     url = build_forecast_url self city ->
     exists st',
       forecast_step E self city st = (Ok tt, st') /\
       files st' = files st /\ city_records st' = city_records st /\
       run_forecast_etl_over E self (city :: rest) st =
         run_forecast_etl_over E self rest st') /\
  (forall history_date city rest,
     url = build_history_url self city history_date ->
     exists st',
       history_step E self history_date city st = (Ok tt, st') /\
       files st' = files st /\ city_records st' = city_records st /\
       for_each (city :: rest) (history_step E self history_date) st =
         for_each rest (history_step E self history_date) st').
Proof.
  intros Hfail.
  destruct (Hfail 0%nat ltac:(lia)) as [e He].
  rewrite Nat.add_0_r in He.
  split; [ | split].
  - destruct (fetch_data_one_request E url st) as (st1 & Hrun & _ & Hf & Hr & _).
    rewrite He in Hrun. exists st1. auto.
  - intros city rest ->.
    destruct (forecast_step_no_data E self city st (ex_intro _ e He))
      as (st' & Hstep & Hf & Hr).
    exists st'. repeat split; try assumption.
    unfold run_forecast_etl_over. simpl. unfold bind. rewrite Hstep. reflexivity.
  - intros history_date city rest ->.
    destruct (history_step_no_data E self history_date city st (ex_intro _ e He))
      as (st' & Hstep & Hf & Hr).
    exists st'. repeat split; try assumption.
    simpl. unfold bind. rewrite Hstep. reflexivity.
Qed.

Lemma failed_fetch_is_skipped_witness :
  (forall k, (k < 3)%nat ->
     exists e, remote offline (requests_made initial_state + k)
                 (build_history_url pune_only "Pune" "2024-01-01") = Raise e) /\
  (exists st1,
     fetch_data offline (build_history_url pune_only "Pune" "2024-01-01") initial_state
       = (Ok JNull, st1) /\
     files st1 = files initial_state) /\
  (exists st',
     history_step offline pune_only "2024-01-01" "Pune" initial_state = (Ok tt, st') /\
     files st' = files initial_state /\
     for_each ["Pune"; "Delhi"] (history_step offline pune_only "2024-01-01") initial_state =
       for_each ["Delhi"] (history_step offline pune_only "2024-01-01") st') /\
  (exists st',
     forecast_step offline pune_only "Pune" initial_state = (Ok tt, st') /\
     files st' = files initial_state /\
     run_forecast_etl_over offline pune_only ["Pune"; "Delhi"] initial_state =
       run_forecast_etl_over offline pune_only ["Delhi"] st').
Proof.
  assert (H : forall url k, (k < 3)%nat ->
     exists e, remote offline (requests_made initial_state + k) url = Raise e).
  { intros url k _. exists ConnectionError. reflexivity. }
  split; [exact (H _) | ].
  destruct (failed_fetch_is_skipped offline pune_only
              (build_history_url pune_only "Pune" "2024-01-01") initial_state (H _))
    as ((st1 & Hfetch & Hf1 & _) & _ & Hhistory).
  destruct (Hhistory "2024-01-01" "Pune" ["Delhi"] eq_refl)
    as (st' & Hstep & Hf & _ & Hloop).
  destruct (failed_fetch_is_skipped offline pune_only
              (build_forecast_url pune_only "Pune") initial_state (H _))
    as (_ & Hforecast & _).
  destruct (Hforecast "Pune" ["Delhi"] eq_refl) as (st2 & Hstep2 & Hf2 & _ & Hloop2).
  split; [exists st1; auto | ]. split; [exists st'; auto | exists st2; auto].
Defined.

(** * The writer: what a call does to the files and the ledger *)

Lemma create_csv_for_city_effect (city : string) (st : state) :
  exists st',
    create_csv_for_city city st = (Ok (city_file_path city), st') /\
    files st' = with_header (files st) city /\
    city_records st' = city_records st.
Proof.
  unfold create_csv_for_city, with_header, bind, get_state.
  destruct (files st !! city_file_path city) as [[ | record content] | ];
    eexists; (split; [reflexivity | split; reflexivity]).
Qed.

Lemma load_city_records_effect (city : string) (st : state) :
  exists st',
    load_city_records city (city_file_path city) st = (Ok tt, st') /\
    files st' = files st /\
    city_records st' = with_ledger (city_records st) (files st) city.
Proof.
  unfold load_city_records, with_ledger, bind, get_state.
  destruct (city_records st !! city) as [ledger | ];
    eexists; (split; [reflexivity | split; reflexivity]).
Qed.

Lemma keys_of_cons (rk : row * key) (rks : list (row * key)) :
  keys_of (rk :: rks) = {[snd rk]} ∪ keys_of rks.
Proof. reflexivity. Qed.

(** The loop over the forecast days, from a state where the city has a
    ledger and a file. *)
Lemma process_days_effect (E : environment) (data : json) (mode city path : string) :
  forall (days : list json) (st : state) (ledger : gset key) (content : csv_file),
  city_records st !! city = Some ledger ->
  files st !! path = Some content ->
  exists res st',
    for_each days (process_day E data mode city path) st = (res, st') /\
    city_records st' =
      <[city := ledger ∪ keys_of (reached data mode days)]> (city_records st) /\
    files st' =
      <[path := (content ++ records_of E (new_rows ledger (reached data mode days)))%list]>
        (files st) /\
    (length (reached data mode days) = length days -> res = Ok tt).
Proof.
  induction days as [ | day_data days IH]; intros st ledger content HR HF.
  - exists (Ok tt), st. simpl. split; [reflexivity | ].
    unfold keys_of. simpl. rewrite union_empty_r_L, app_nil_r.
    rewrite !insert_id by assumption. auto.
  - simpl. unfold bind at 1. unfold process_day at 1. unfold bind at 1, lift at 1.
    destruct (build_row data mode day_data) as [r | e].
    2:{ exists (Raise e), st. split; [reflexivity | ].
        unfold keys_of. simpl. rewrite union_empty_r_L, app_nil_r.
        rewrite !insert_id by assumption. repeat split. discriminate. }
    unfold bind at 1, ledger_of at 1, bind at 1, get_state at 1. rewrite HR.
    unfold ret at 1. unfold bind at 1, lift at 1.
    destruct (hash_key (Date r)) as [date_key | e].
    2:{ exists (Raise e), st. split; [reflexivity | ].
        unfold keys_of. simpl. rewrite union_empty_r_L, app_nil_r.
        rewrite !insert_id by assumption. repeat split. discriminate. }
    simpl new_rows. rewrite keys_of_cons. simpl snd.
    destruct (bool_decide_reflect ((date_key, Type_ r) ∈ ledger)) as [Hin | Hnotin].
    + set (st1 := snd (log INFO (MsgSkippedDuplicate city (Date r) (upper mode)) st)).
      destruct (IH st1 ledger content HR HF) as (res & st' & Hrun & HR' & HF' & Hok).
      exists res, st'. split; [exact Hrun | ]. split; [ | split].
      * rewrite HR'. subst st1. simpl. f_equal. set_solver.
      * rewrite HF'. rewrite bool_decide_eq_true_2 by exact Hin. reflexivity.
      * intros Hlen. apply Hok. simpl in Hlen. lia.
    + set (st1 :=
        {| city_records := <[city := ledger ∪ {[(date_key, Type_ r)]}]> (city_records st);
           files := <[path := (content ++ [record_of_row E r])%list]> (files st);
           requests_made := requests_made st;
           events := (events st ++ [Log INFO (MsgWrote (upper mode) city (Date r))])%list |}).
      assert (Hstep :
        (append_record path (record_of_row E r) ;;
         log INFO (MsgWrote (upper mode) city (Date r)) ;;
         ledger' <- ledger_of city ;;
         st0 <- get_state ;;
         set_city_records
           (<[city := ledger' ∪ {[(date_key, Type_ r)]}]> (city_records st0))) st
        = (Ok tt, st1)).
      { unfold bind, append_record, bind, get_state, set_files, log, emit, ledger_of,
          bind, get_state, set_city_records, ret. simpl. rewrite HR, HF. reflexivity. }
      rewrite Hstep.
      destruct (IH st1 (ledger ∪ {[(date_key, Type_ r)]}) (content ++ [record_of_row E r])%list)
        as (res & st' & Hrun & HR' & HF' & Hok).
      { subst st1. simpl. apply lookup_insert_eq. }
      { subst st1. simpl. apply lookup_insert_eq. }
      exists res, st'. split; [exact Hrun | ]. split; [ | split].
      * rewrite HR'. subst st1. simpl. rewrite insert_insert_eq. f_equal. set_solver.
      * rewrite HF'. subst st1. simpl.
        rewrite bool_decide_eq_false_2 by exact Hnotin.
        rewrite insert_insert_eq, <- app_assoc. reflexivity.
      * intros Hlen. apply Hok. simpl in Hlen. lia.
Qed.

Lemma bind_lift {A B} (r : result A) (f : A -> M B) (st : state) :
  bind (lift r) f st =
    match r with
    | Ok a => f a st
    | Raise e => (Raise e, st)
    end.
Proof. destruct r; reflexivity. Qed.

Lemma with_header_lookup (F : gmap string csv_file) (city : string) :
  exists content,
    with_header F city !! city_file_path city = Some content /\ content <> [].
Proof.
  unfold with_header.
  destruct (F !! city_file_path city) as [[ | record content] | ] eqn:HF.
  - exists [header]. rewrite lookup_insert_eq. split; [reflexivity | discriminate].
  - exists (record :: content). split; [exact HF | discriminate].
  - exists [header]. rewrite lookup_insert_eq. split; [reflexivity | discriminate].
Qed.

Lemma with_ledger_lookup (R : gmap string (gset key)) (F : gmap string csv_file)
    (city : string) :
  is_Some (with_ledger R F city !! city).
Proof.
  unfold with_ledger. destruct (R !! city) as [ledger | ] eqn:HR.
  - rewrite HR. eauto.
  - rewrite lookup_insert_eq. eauto.
Qed.

(** The handler of [extract_and_write] only logs. *)
Lemma extract_handler_effect (mode : string) (e : exn) (st : state) :
  exists st',
    (log ERROR (MsgExtractError mode e) ;; exception_handling e) st = (Ok tt, st') /\
    city_records st' = city_records st /\ files st' = files st.
Proof. eexists. split; [reflexivity | split; reflexivity]. Qed.

(** [extract_and_write] never raises, and what it leaves in the ledger and
    on disk is [extract_effect] of what it found there. *)
Lemma extract_and_write_effect (E : environment) (data : json) (mode : string) (st : state) :
  exists st',
    extract_and_write E data mode st = (Ok tt, st') /\
    (city_records st', files st') =
      extract_effect E data mode (city_records st) (files st).
Proof.
  unfold extract_and_write, try_except, extract_and_write_body, extract_effect,
    city_of, days_of, result_bind.
  rewrite bind_lift.
  destruct (getitem data "location") as [location | e];
    [ | eexists; split; [reflexivity | reflexivity]].
  rewrite bind_lift.
  destruct (getitem location "name") as [name | e];
    [ | eexists; split; [reflexivity | reflexivity]].
  rewrite bind_lift.
  destruct (str_replace name) as [city | e];
    [ | eexists; split; [reflexivity | reflexivity]].
  destruct (create_csv_for_city_effect city st) as (st1 & Hcreate & HF1 & HR1).
  unfold bind at 1. rewrite Hcreate.
  destruct (load_city_records_effect city st1) as (st2 & Hload & HF2 & HR2).
  unfold bind at 1. rewrite Hload.
  rewrite HF1, HR1 in HR2. rewrite HF1 in HF2.
  destruct (with_header_lookup (files st) city) as (content & Hcontent & _).
  destruct (with_ledger_lookup (city_records st) (with_header (files st) city) city)
    as (ledger & Hledger).
  rewrite Hcontent, Hledger. simpl default.
  rewrite bind_lift.
  destruct (getitem data "forecast") as [forecast | e].
  2:{ destruct (extract_handler_effect mode e st2) as (st' & Hh & HR' & HF').
      exists st'. split; [exact Hh | ]. rewrite HR', HF', HR2, HF2. reflexivity. }
  rewrite bind_lift.
  destruct (getitem forecast "forecastday") as [forecast_days | e].
  2:{ destruct (extract_handler_effect mode e st2) as (st' & Hh & HR' & HF').
      exists st'. split; [exact Hh | ]. rewrite HR', HF', HR2, HF2. reflexivity. }
  rewrite bind_lift.
  destruct (iter forecast_days) as [days | e].
  2:{ destruct (extract_handler_effect mode e st2) as (st' & Hh & HR' & HF').
      exists st'. split; [exact Hh | ]. rewrite HR', HF', HR2, HF2. reflexivity. }
  rewrite <- HR2 in Hledger. rewrite <- HF2 in Hcontent.
  destruct (process_days_effect E data mode city (city_file_path city) days st2
              ledger content Hledger Hcontent) as (res & st3 & Hloop & HR3 & HF3 & _).
  rewrite Hloop. rewrite HR2 in HR3. rewrite HF2 in HF3.
  destruct res as [[] | e].
  - exists st3. split; [reflexivity | ]. rewrite HR3, HF3. reflexivity.
  - destruct (extract_handler_effect mode e st3) as (st' & Hh & HR' & HF').
    exists st'. split; [exact Hh | ]. rewrite HR', HF', HR3, HF3. reflexivity.
Qed.

(** * Reading a file back *)

Lemma reader_get_Date (record : list string) :
  reader_get header record "Date" = nth_error record 0.
Proof. reflexivity. Qed.

Lemma reader_get_Type (record : list string) :
  reader_get header record "Type" = nth_error record 7.
Proof. reflexivity. Qed.

Lemma read_ledger_fold (pairs : list (option string * option string)) :
  forall (acc : gset key) (k : key),
  k ∈ foldl (fun ledger p => if all_truthy p then ledger ∪ {[stored_key p]} else ledger)
        acc pairs <->
  k ∈ acc \/ exists p, p ∈ pairs /\ all_truthy p = true /\ stored_key p = k.
Proof.
  induction pairs as [ | p pairs IH]; intros acc k; simpl.
  - split; [auto | ]. intros [H | (p & Hp & _)]; [exact H | ].
    apply elem_of_nil in Hp. contradiction.
  - rewrite IH. split.
    + intros [Hk | (q & Hq & Hall & Hkey)].
      * destruct (all_truthy p) eqn:Hp.
        -- apply elem_of_union in Hk as [Hk | Hk]; [auto | ].
           apply elem_of_singleton in Hk. right. exists p.
           split; [apply elem_of_cons; auto | auto].
        -- auto.
      * right. exists q. split; [apply elem_of_cons; auto | auto].
    + intros [Hk | (q & Hq & Hall & Hkey)].
      * left. destruct (all_truthy p); [apply elem_of_union | ]; auto.
      * apply elem_of_cons in Hq as [-> | Hq].
        -- left. rewrite Hall. apply elem_of_union. right.
           apply elem_of_singleton. auto.
        -- right. exists q. auto.
Qed.

Lemma elem_of_read_ledger (content : csv_file) (k : key) :
  k ∈ read_ledger content <->
  exists p, p ∈ file_pairs content /\ all_truthy p = true /\ stored_key p = k.
Proof.
  unfold read_ledger. rewrite read_ledger_fold. split.
  - intros [H | H]; [ | exact H]. apply not_elem_of_empty in H. contradiction.
  - auto.
Qed.

Lemma all_truthy_spec (p : option string * option string) :
  all_truthy p = true <->
  exists d t, p = (Some d, Some t) /\ d <> "" /\ t <> "".
Proof.
  destruct p as [[d | ] [t | ]]; simpl; split;
    try discriminate; try (intros (d' & t' & Heq & _); discriminate).
  - intros H. apply andb_true_iff in H as [Hd Ht].
    apply negb_true_iff in Hd, Ht. apply String.eqb_neq in Hd, Ht.
    exists d, t. auto.
  - intros (d' & t' & Heq & Hd & Ht). injection Heq as -> ->.
    apply andb_true_iff. split; apply negb_true_iff, String.eqb_neq; assumption.
Qed.

(** C9.  Filling a fresh ledger from an existing file keeps exactly the
    keys of the rows whose Date and Type are both present and non-empty:
    a key is in the ledger if and only if such a row carries it, so a row
    with a missing or empty Date or Type puts no key there. *)
Theorem hydration_keeps_complete_rows_only
    (city : string) (content : csv_file) (st : state) :
  city_records st !! city = None ->
  files st !! city_file_path city = Some content ->
  exists st' ledger,
    load_city_records city (city_file_path city) st = (Ok tt, st') /\
    city_records st' !! city = Some ledger /\
    forall k : key,
      k ∈ ledger <->
      exists r d t,
        r ∈ dict_reader content /\ r "Date" = Some d /\ r "Type" = Some t /\
        d <> "" /\ t <> "" /\ k = (KStr d, t).
Proof.
  intros HR HF.
  destruct (load_city_records_effect city st) as (st' & Hload & _ & HR').
  unfold with_ledger in HR'. rewrite HR, HF in HR'.
  exists st', (read_ledger content). split; [exact Hload | ].
  split; [rewrite HR'; apply lookup_insert_eq | ].
  intros k. rewrite elem_of_read_ledger. unfold file_pairs. split.
  - intros (p & Hp & Hall & Hkey).
    apply list_elem_of_fmap in Hp as (r & -> & Hr).
    apply all_truthy_spec in Hall as (d & t & Heq & Hd & Ht).
    injection Heq as Hdate Htype.
    exists r, d, t. repeat split; try assumption.
    rewrite <- Hkey. unfold stored_key. simpl. rewrite Hdate, Htype. reflexivity.
  - intros (r & d & t & Hr & Hdate & Htype & Hd & Ht & ->).
    exists (r "Date", r "Type"). split; [ | split].
    + apply list_elem_of_fmap. exists r. auto.
    + apply all_truthy_spec. exists d, t. rewrite Hdate, Htype. auto.
    + unfold stored_key. simpl. rewrite Hdate, Htype. reflexivity.
Qed.

Lemma hydration_keeps_complete_rows_only_witness :
  city_records (on_disk (city_file_path "Pune") ragged_file) !! "Pune" = None /\
  files (on_disk (city_file_path "Pune") ragged_file) !! city_file_path "Pune"
    = Some ragged_file /\
  exists st' ledger,
    load_city_records "Pune" (city_file_path "Pune")
      (on_disk (city_file_path "Pune") ragged_file) = (Ok tt, st') /\
    city_records st' !! "Pune" = Some ledger /\
    ((KStr "", "FORECAST") ∈ ledger <->
     exists r d t,
       r ∈ dict_reader ragged_file /\ r "Date" = Some d /\ r "Type" = Some t /\
       d <> "" /\ t <> "" /\ (KStr "", "FORECAST") = (KStr d, t)).
Proof.
  split; [reflexivity | ]. split; [reflexivity | ].
  destruct (hydration_keeps_complete_rows_only "Pune" ragged_file
              (on_disk (city_file_path "Pune") ragged_file) eq_refl eq_refl)
    as (st' & ledger & Hload & Hledger & Hiff).
  exists st', ledger. split; [exact Hload | ]. split; [exact Hledger | ].
  apply Hiff.
Defined.

(** * Rows *)

Ltac step_result H :=
  match type of H with
  | match ?x with Ok a => _ | Raise e => _ end = _ =>
      let v := fresh "v" in
      let Hv := fresh "Hv" in
      destruct x as [v | ] eqn:Hv; [cbv beta iota in H | discriminate H]
  end.

Lemma build_row_fields (data : json) (mode : string) (day_data : json) (r : row) :
  build_row data mode day_data = Ok r ->
  getitem day_data "date" = Ok (Date r) /\
  Type_ r = upper mode /\
  exists current air_quality,
    get_default data "current" (JObj []) = Ok current /\
    get_default current "air_quality" (JObj []) = Ok air_quality /\
    get_default air_quality "co" (JStr "N/A") = Ok (Air_Quality r).
Proof.
  unfold build_row, result_bind. intros H.
  repeat step_result H.
  injection H as <-. simpl. eauto 10.
Qed.

Lemma air_quality_default (data : json) (mode : string) (day_data : json) (r : row) :
  co_of data = None ->
  build_row data mode day_data = Ok r ->
  Air_Quality r = JStr "N/A".
Proof.
  intros Hco Hrow.
  apply build_row_fields in Hrow as (_ & _ & current & air_quality & Hc & Ha & Hq).
  destruct data as [ | | | | | top]; try discriminate Hc.
  simpl in Hc, Hco. injection Hc as <-.
  destruct (assoc "current" top) as [[ | | | | | cur] | ]; try discriminate Ha.
  - simpl in Ha. injection Ha as <-.
    destruct (assoc "air_quality" cur) as [[ | | | | | aq] | ]; try discriminate Hq.
    + simpl in Hq. rewrite Hco in Hq. injection Hq as <-. reflexivity.
    + simpl in Hq. injection Hq as <-. reflexivity.
  - simpl in Ha. injection Ha as <-. simpl in Hq. injection Hq as <-. reflexivity.
Qed.

Lemma reached_built (data : json) (mode : string) (days : list json) (r : row) (k : key) :
  (r, k) ∈ reached data mode days ->
  exists day_data date_key,
    day_data ∈ days /\ build_row data mode day_data = Ok r /\
    hash_key (Date r) = Ok date_key /\ k = (date_key, Type_ r).
Proof.
  induction days as [ | d days IH]; simpl; intros Hin.
  - apply elem_of_nil in Hin. contradiction.
  - destruct (build_row data mode d) as [r0 | ] eqn:Hrow;
      [ | apply elem_of_nil in Hin; contradiction].
    destruct (hash_key (Date r0)) as [kd | ] eqn:Hk;
      [ | apply elem_of_nil in Hin; contradiction].
    apply elem_of_cons in Hin as [Heq | Hin].
    + injection Heq as -> ->. exists d, kd.
      split; [apply elem_of_cons; auto | auto].
    + destruct (IH Hin) as (d' & kd' & Hd' & H').
      exists d', kd'. split; [apply elem_of_cons; auto | exact H'].
Qed.

Lemma new_rows_subset (rks : list (row * key)) :
  forall (ledger : gset key) (rk : row * key),
  rk ∈ new_rows ledger rks -> rk ∈ rks /\ snd rk ∉ ledger.
Proof.
  induction rks as [ | [r k] rks IH]; intros ledger rk; simpl.
  - intros H. apply elem_of_nil in H. contradiction.
  - destruct (bool_decide_reflect (k ∈ ledger)) as [Hin | Hnotin]; intros H.
    + destruct (IH _ _ H). split; [apply elem_of_cons; auto | assumption].
    + apply elem_of_cons in H as [-> | H].
      * split; [apply elem_of_cons; auto | exact Hnotin].
      * destruct (IH _ _ H) as [H1 H2].
        split; [apply elem_of_cons; auto | set_solver].
Qed.

(** * Append-only *)

Lemma with_header_appends (F : gmap string csv_file) (city path : string) :
  exists extra,
    content_of (with_header F city) path = (content_of F path ++ extra)%list /\
    (extra = [] \/ extra = [header]).
Proof.
  unfold with_header, content_of.
  destruct (F !! city_file_path city) as [[ | record content] | ] eqn:HF.
  - destruct (decide (city_file_path city = path)) as [<- | Hne].
    + exists [header]. rewrite lookup_insert_eq, HF. auto.
    + exists []. rewrite lookup_insert_ne, app_nil_r by exact Hne. auto.
  - exists []. rewrite app_nil_r. auto.
  - destruct (decide (city_file_path city = path)) as [<- | Hne].
    + exists [header]. rewrite lookup_insert_eq, HF. auto.
    + exists []. rewrite lookup_insert_ne, app_nil_r by exact Hne. auto.
Qed.

(** Whatever a call adds to a file comes after what was there, and is the
    header or the record of a row built from the payload. *)
Lemma extract_effect_appends (E : environment) (data : json) (mode : string)
    (R : gmap string (gset key)) (F : gmap string csv_file) (path : string) :
  exists extra,
    content_of (snd (extract_effect E data mode R F)) path
      = (content_of F path ++ extra)%list /\
    Forall (fun record =>
              record = header \/
              exists day_data r,
                build_row data mode day_data = Ok r /\ record = record_of_row E r)
           extra.
Proof.
  unfold extract_effect.
  destruct (city_of data) as [city | ];
    [ | exists []; simpl; rewrite app_nil_r; auto].
  destruct (with_header_appends F city path) as (extra0 & Hextra0 & Hcase).
  assert (Hhead : Forall (fun record =>
              record = header \/
              exists day_data r,
                build_row data mode day_data = Ok r /\ record = record_of_row E r)
           extra0).
  { destruct Hcase as [-> | ->]; [constructor | ]. constructor; [auto | constructor]. }
  destruct (days_of data) as [days | ]; [ | exists extra0; simpl; auto].
  simpl snd.
  destruct (decide (city_file_path city = path)) as [<- | Hne].
  - eexists. unfold content_of at 1. rewrite lookup_insert_eq. simpl.
    fold (content_of (with_header F city) (city_file_path city)).
    rewrite Hextra0, <- app_assoc. split; [reflexivity | ].
    apply Forall_app. split; [exact Hhead | ].
    apply Forall_forall. intros record Hin.
    unfold records_of in Hin.
    apply list_elem_of_fmap in Hin as ([r k] & -> & Hrk).
    apply new_rows_subset in Hrk as [Hrk _].
    apply reached_built in Hrk as (d & kd & _ & Hrow & _).
    right. exists d, r. auto.
  - exists extra0. unfold content_of at 1. rewrite lookup_insert_ne by exact Hne.
    split; [exact Hextra0 | exact Hhead].
Qed.

Lemma extract_effect_keeps_files (E : environment) (data : json) (mode : string)
    (R : gmap string (gset key)) (F : gmap string csv_file) (path : string) :
  is_Some (F !! path) -> is_Some (snd (extract_effect E data mode R F) !! path).
Proof.
  intros HF. unfold extract_effect.
  destruct (city_of data) as [city | ]; [ | exact HF].
  assert (H1 : is_Some (with_header F city !! path)).
  { unfold with_header.
    destruct (F !! city_file_path city) as [[ | ? ?] | ]; try exact HF;
      (destruct (decide (city_file_path city = path)) as [<- | Hne];
       [rewrite lookup_insert_eq; eauto | rewrite lookup_insert_ne by exact Hne; exact HF]). }
  destruct (days_of data) as [days | ]; [ | exact H1].
  simpl. destruct (decide (city_file_path city = path)) as [<- | Hne].
  - rewrite lookup_insert_eq. eauto.
  - rewrite lookup_insert_ne by exact Hne. exact H1.
Qed.

(** C7.  When the payload has no value at [current.air_quality.co], every
    row built from it has ["N/A"] as its [Air_Quality], so has the record
    written for it, and whatever a call adds to a file is a header or a
    record with ["N/A"] in that column. *)
Theorem missing_air_quality_gives_sentinel
    (E : environment) (data : json) (mode : string) :
  co_of data = None ->
  (forall day_data r,
     build_row data mode day_data = Ok r ->
     Air_Quality r = JStr "N/A" /\
     nth_error (record_of_row E r) 6 = Some "N/A") /\
  (forall st path,
     exists st' extra,
       extract_and_write E data mode st = (Ok tt, st') /\
       content_of (files st') path = (content_of (files st) path ++ extra)%list /\
       Forall (fun record => record = header \/ nth_error record 6 = Some "N/A") extra).
Proof.
  intros Hco.
  assert (Hrow : forall day_data r,
     build_row data mode day_data = Ok r ->
     Air_Quality r = JStr "N/A" /\
     nth_error (record_of_row E r) 6 = Some "N/A").
  { intros day_data r Hr.
    pose proof (air_quality_default data mode day_data r Hco Hr) as Haq.
    split; [exact Haq | ]. unfold record_of_row. simpl. rewrite Haq. reflexivity. }
  split; [exact Hrow | ].
  intros st path.
  destruct (extract_and_write_effect E data mode st) as (st' & Hrun & Heff).
  destruct (extract_effect_appends E data mode (city_records st) (files st) path)
    as (extra & Hextra & Hall).
  rewrite <- Heff in Hextra. simpl in Hextra.
  exists st', extra. split; [exact Hrun | ]. split; [exact Hextra | ].
  eapply Forall_impl; [exact Hall | ].
  intros record [-> | (day_data & r & Hr & ->)]; [auto | ].
  right. apply (Hrow day_data r Hr).
Qed.

Lemma missing_air_quality_gives_sentinel_witness :
  co_of three_days = None /\
  exists r,
    build_row three_days "forecast" (sample_day (JStr "2024-01-01")) = Ok r /\
    Air_Quality r = JStr "N/A" /\
    nth_error (record_of_row steady r) 6 = Some "N/A".
Proof.
  split; [reflexivity | ].
  eexists. split; [reflexivity | ].
  apply (proj1 (missing_air_quality_gives_sentinel steady three_days "forecast" eq_refl)
           (sample_day (JStr "2024-01-01"))).
  reflexivity.
Defined.

(** The turn of a day whose key the ledger already has. *)
Lemma process_day_skips (E : environment) (data : json) (mode city path : string)
    (day_data : json) (st : state) (r : row) (date_key : keyval) (ledger : gset key) :
  build_row data mode day_data = Ok r ->
  hash_key (Date r) = Ok date_key ->
  city_records st !! city = Some ledger ->
  (date_key, Type_ r) ∈ ledger ->
  process_day E data mode city path day_data st =
    (Ok tt,
     {| city_records := city_records st; files := files st;
        requests_made := requests_made st;
        events := (events st ++
                   [Log INFO (MsgSkippedDuplicate city (Date r) (upper mode))])%list |}).
Proof.
  intros Hrow Hkey HR Hin.
  unfold process_day. rewrite bind_lift, Hrow.
  unfold bind at 1, ledger_of at 1, bind at 1, get_state at 1. rewrite HR.
  unfold ret at 1. rewrite bind_lift, Hkey.
  rewrite bool_decide_eq_true_2 by exact Hin. reflexivity.
Qed.

(** C6.  A forecast day whose key is in the city's ledger is logged as a
    duplicate and nothing is written: files and ledger stay as they are.
    And for every call and every file, what the file held before the call
    is a prefix of what it holds after, and no file disappears. *)
Theorem known_key_is_skipped_and_files_only_grow
    (E : environment) (data : json) (mode city path : string)
    (day_data : json) (st : state) (r : row) (date_key : keyval) (ledger : gset key) :
  build_row data mode day_data = Ok r ->
  hash_key (Date r) = Ok date_key ->
  city_records st !! city = Some ledger ->
  (date_key, Type_ r) ∈ ledger ->
  (exists st',
     process_day E data mode city path day_data st = (Ok tt, st') /\
     files st' = files st /\
     city_records st' = city_records st /\
     events st' =
       (events st ++ [Log INFO (MsgSkippedDuplicate city (Date r) (upper mode))])%list) /\
  (forall data' mode' st0 p,
     content_of (files st0) p `prefix_of`
       content_of (files (snd (extract_and_write E data' mode' st0))) p /\
     (is_Some (files st0 !! p) ->
      is_Some (files (snd (extract_and_write E data' mode' st0)) !! p))).
Proof.
  intros Hrow Hkey HR Hin. split.
  - eexists. split; [exact (process_day_skips E data mode city path day_data st r
                              date_key ledger Hrow Hkey HR Hin) | ].
    simpl. auto.
  - intros data' mode' st0 p.
    destruct (extract_and_write_effect E data' mode' st0) as (st' & Hrun & Heff).
    rewrite Hrun. simpl.
    assert (Hfiles : files st' = snd (extract_effect E data' mode' (city_records st0) (files st0)))
      by (rewrite <- Heff; reflexivity).
    rewrite Hfiles. split.
    + destruct (extract_effect_appends E data' mode' (city_records st0) (files st0) p)
        as (extra & -> & _).
      exists extra. reflexivity.
    + apply extract_effect_keeps_files.
Qed.

Lemma known_key_is_skipped_and_files_only_grow_witness :
  exists r date_key ledger,
    build_row three_days "forecast" (sample_day (JStr "2024-01-01")) = Ok r /\
    hash_key (Date r) = Ok date_key /\
    city_records pune_known !! "Pune" = Some ledger /\
    (date_key, Type_ r) ∈ ledger /\
    exists st',
      process_day steady three_days "forecast" "Pune" (city_file_path "Pune")
        (sample_day (JStr "2024-01-01")) pune_known = (Ok tt, st') /\
      files st' = files pune_known.
Proof.
  eexists _, _, _.
  assert (Hin : (KStr "2024-01-01", "FORECAST") ∈
                ({[(KStr "2024-01-01", "FORECAST")]} : gset key))
    by (apply elem_of_singleton; reflexivity).
  split; [reflexivity | ]. split; [reflexivity | ]. split; [reflexivity | ].
  split; [exact Hin | ].
  destruct (proj1 (known_key_is_skipped_and_files_only_grow steady three_days "forecast"
              "Pune" (city_file_path "Pune") (sample_day (JStr "2024-01-01")) pune_known
              _ _ _ eq_refl eq_refl eq_refl Hin)) as (st' & Hrun & Hf & _).
  exists st'. split; [exact Hrun | exact Hf].
Defined.

(** * The loop over the days *)

Lemma elem_of_keys_of (rks : list (row * key)) (k : key) :
  k ∈ keys_of rks <-> exists rk, rk ∈ rks /\ snd rk = k.
Proof.
  unfold keys_of. rewrite elem_of_list_to_set, list_elem_of_fmap.
  split; intros (rk & H1 & H2); exists rk; auto.
Qed.

Lemma keys_of_app (l1 l2 : list (row * key)) :
  keys_of (l1 ++ l2) = keys_of l1 ∪ keys_of l2.
Proof. unfold keys_of. rewrite map_app. apply list_to_set_app_L. Qed.

Lemma new_rows_app (l1 l2 : list (row * key)) :
  forall ledger : gset key,
  new_rows ledger (l1 ++ l2) =
    (new_rows ledger l1 ++ new_rows (ledger ∪ keys_of l1) l2)%list.
Proof.
  induction l1 as [ | [r k] l1 IH]; intros ledger; simpl.
  - unfold keys_of. simpl. rewrite union_empty_r_L. reflexivity.
  - rewrite keys_of_cons. simpl snd.
    destruct (bool_decide_reflect (k ∈ ledger)) as [Hin | Hnotin].
    + rewrite IH. do 2 f_equal. set_solver.
    + simpl. rewrite IH. do 3 f_equal. set_solver.
Qed.

Lemma new_rows_fresh (rks : list (row * key)) :
  forall ledger : gset key,
  NoDup (map snd rks) ->
  (forall rk, rk ∈ rks -> snd rk ∉ ledger) ->
  new_rows ledger rks = rks.
Proof.
  induction rks as [ | [r k] rks IH]; intros ledger Hnodup Hfresh; simpl.
  - reflexivity.
  - simpl in Hnodup. apply NoDup_cons in Hnodup as [Hk Hnodup].
    rewrite bool_decide_eq_false_2
      by (apply (Hfresh (r, k)); apply elem_of_cons; auto).
    f_equal. apply IH; [exact Hnodup | ].
    intros rk Hrk Hin. apply elem_of_union in Hin as [Hin | Hin].
    + apply (Hfresh rk); [apply elem_of_cons; auto | exact Hin].
    + apply elem_of_singleton in Hin. apply Hk. rewrite <- Hin.
      apply list_elem_of_fmap. exists rk. auto.
Qed.

Lemma reached_complete_app (data : json) (mode : string) (l1 l2 : list json) :
  length (reached data mode (l1 ++ l2)) = length (l1 ++ l2) ->
  reached data mode (l1 ++ l2) = (reached data mode l1 ++ reached data mode l2)%list /\
  length (reached data mode l1) = length l1 /\
  length (reached data mode l2) = length l2.
Proof.
  induction l1 as [ | d l1 IH]; simpl; intros Hlen.
  - auto.
  - destruct (build_row data mode d) as [r | ]; [ | discriminate Hlen].
    destruct (hash_key (Date r)) as [kd | ]; [ | discriminate Hlen].
    simpl in Hlen. injection Hlen as Hlen.
    destruct (IH Hlen) as (Happ & H1 & H2).
    simpl. rewrite Happ, H1. auto.
Qed.

Lemma reached_one (data : json) (mode : string) (d : json) (rest : list json)
    (r : row) (date_key : keyval) :
  build_row data mode d = Ok r ->
  hash_key (Date r) = Ok date_key ->
  reached data mode (d :: rest) = (r, (date_key, upper mode)) :: reached data mode rest.
Proof.
  intros Hrow Hkey. simpl. rewrite Hrow, Hkey.
  apply build_row_fields in Hrow as (_ & -> & _). reflexivity.
Qed.

Lemma read_ledger_header : read_ledger [header] = ∅.
Proof. reflexivity. Qed.

(** C5 (amended).  For a payload whose city is a plain file name, whose
    cells [csv] reads back, and whose forecast-day list has exactly three
    entries, each of which yields a row with a hashable date, no two for
    the same date, a call for a city that has neither file nor ledger
    creates the file with the header and appends the three rows. *)
Theorem three_distinct_days_append_three_rows
    (E : environment) (data : json) (mode city : string) (days : list json) (st : state) :
  city_of data = Ok city ->
  plain_name city = true ->
  cells_ok E mode data = true ->
  days_of data = Ok days ->
  length days = 3%nat ->
  length (reached data mode days) = length days ->
  NoDup (map snd (reached data mode days)) ->
  files st !! city_file_path city = None ->
  city_records st !! city = None ->
  exists st',
    extract_and_write E data mode st = (Ok tt, st') /\
    files st' !! city_file_path city =
      Some (header :: records_of E (reached data mode days)) /\
    length (records_of E (reached data mode days)) = 3%nat.
Proof.
  intros Hcity Hplain Hcells Hdays Hthree Hall Hnodup HF HR.
  destruct (extract_and_write_effect E data mode st) as (st' & Hrun & Heff).
  exists st'. split; [exact Hrun | ]. split.
  - assert (Hfiles : files st' = snd (extract_effect E data mode (city_records st) (files st)))
      by (rewrite <- Heff; reflexivity).
    rewrite Hfiles. unfold extract_effect. rewrite Hcity, Hdays. simpl snd.
    rewrite lookup_insert_eq. f_equal.
    unfold with_header. rewrite HF. rewrite lookup_insert_eq. simpl default.
    unfold with_ledger. rewrite HR. rewrite !lookup_insert_eq. simpl default.
    rewrite read_ledger_header.
    rewrite new_rows_fresh; [reflexivity | exact Hnodup | ].
    intros rk _. apply not_elem_of_empty.
  - unfold records_of. rewrite length_map, Hall. exact Hthree.
Qed.

Lemma three_distinct_days_append_three_rows_witness :
  exists days,
    city_of three_days = Ok "Pune" /\
    plain_name "Pune" = true /\
    cells_ok steady "forecast" three_days = true /\
    days_of three_days = Ok days /\
    length days = 3%nat /\
    length (reached three_days "forecast" days) = length days /\
    NoDup (map snd (reached three_days "forecast" days)) /\
    files initial_state !! city_file_path "Pune" = None /\
    city_records initial_state !! "Pune" = None /\
    exists st',
      extract_and_write steady three_days "forecast" initial_state = (Ok tt, st') /\
      files st' !! city_file_path "Pune" =
        Some (header :: records_of steady (reached three_days "forecast" days)).
Proof.
  eexists.
  assert (Hnodup : NoDup (map snd (reached three_days "forecast"
            [sample_day (JStr "2024-01-01"); sample_day (JStr "2024-01-02");
             sample_day (JStr "2024-01-03")]))).
  { simpl. repeat (apply NoDup_cons; split;
      [rewrite ?elem_of_cons, elem_of_nil; intros H;
       repeat (destruct H as [H | H]; [discriminate H | ]); exact H | ]).
    apply NoDup_nil. exact I. }
  split; [reflexivity | ]. split; [reflexivity | ]. split; [reflexivity | ].
  split; [reflexivity | ]. split; [reflexivity | ]. split; [reflexivity | ].
  split; [exact Hnodup | ].
  split; [reflexivity | ]. split; [reflexivity | ].
  destruct (three_distinct_days_append_three_rows steady three_days "forecast" "Pune" _
              initial_state eq_refl eq_refl eq_refl eq_refl eq_refl eq_refl Hnodup
              eq_refl eq_refl)
    as (st' & Hrun & Hfile & _).
  exists st'. split; [exact Hrun | exact Hfile].
Defined.

(** C5 as stated fails: three entries, two of them for the same date, give
    a header and two rows. *)
Lemma three_entries_two_rows :
  (length <$> match days_of repeated_date with Ok days => Some days | Raise _ => None end)
    = Some 3%nat /\
  files initial_state !! city_file_path "Pune" = None /\
  city_records initial_state !! "Pune" = None /\
  files (snd (extract_and_write steady repeated_date "forecast" initial_state))
    !! city_file_path "Pune"
  = Some [header; ["2024-01-01"; "Pune"; "India"; "12.0"; "27.0"; "55"; "N/A"; "FORECAST"];
          ["2024-01-02"; "Pune"; "India"; "12.0"; "27.0"; "55"; "N/A"; "FORECAST"]] /\
  ~ (exists rows,
       length rows = 3%nat /\
       files (snd (extract_and_write steady repeated_date "forecast" initial_state))
         !! city_file_path "Pune" = Some (header :: rows)).
Proof.
  repeat split.
  intros (rows & Hlen & Hfile).
  injection Hfile as <-. discriminate Hlen.
Qed.

Lemma reached_app_complete (data : json) (mode : string) (l1 l2 : list json) :
  length (reached data mode l1) = length l1 ->
  reached data mode (l1 ++ l2) = (reached data mode l1 ++ reached data mode l2)%list.
Proof.
  induction l1 as [ | d l1 IH]; simpl; intros Hlen.
  - reflexivity.
  - destruct (build_row data mode d) as [r | ]; [ | discriminate Hlen].
    destruct (hash_key (Date r)) as [kd | ]; [ | discriminate Hlen].
    simpl in Hlen. injection Hlen as Hlen. simpl. rewrite IH by exact Hlen. reflexivity.
Qed.

Lemma new_rows_known (ledger : gset key) (r : row) (k : key) (rest : list (row * key)) :
  k ∈ ledger -> new_rows ledger ((r, k) :: rest) = new_rows ledger rest.
Proof. intros Hin. simpl. rewrite bool_decide_eq_true_2 by exact Hin. reflexivity. Qed.

Lemma new_rows_unknown (ledger : gset key) (r : row) (k : key) (rest : list (row * key)) :
  k ∉ ledger ->
  new_rows ledger ((r, k) :: rest) = (r, k) :: new_rows (ledger ∪ {[k]}) rest.
Proof. intros Hin. simpl. rewrite bool_decide_eq_false_2 by exact Hin. reflexivity. Qed.

(** C10.  In one run of the loop over a forecast-day list in which a date
    comes twice (entries [a] and [b], every entry yielding a row), with the
    key new to the ledger when [a]'s turn comes: [a]'s record is appended,
    no other appended record has that key, and the records after it are
    those the list without [b] gives, the ledger holding the key from the
    moment [a] is written. *)
Theorem second_entry_of_a_date_is_skipped
    (E : environment) (data : json) (mode city path : string)
    (pre mid post : list json) (a b : json) (ra rb : row) (date_key : keyval)
    (st : state) (ledger : gset key) (content : csv_file) :
  city_records st !! city = Some ledger ->
  files st !! path = Some content ->
  length (reached data mode (pre ++ a :: mid ++ b :: post)) =
    length (pre ++ a :: mid ++ b :: post) ->
  build_row data mode a = Ok ra ->
  build_row data mode b = Ok rb ->
  Date ra = Date rb ->
  hash_key (Date ra) = Ok date_key ->
  (date_key, upper mode) ∉ ledger ∪ keys_of (reached data mode pre) ->
  exists st' w1 w2,
    for_each (pre ++ a :: mid ++ b :: post) (process_day E data mode city path) st
      = (Ok tt, st') /\
    files st' !! path =
      Some (content ++ records_of E w1 ++ record_of_row E ra :: records_of E w2)%list /\
    w1 = new_rows ledger (reached data mode pre) /\
    w2 = new_rows (ledger ∪ keys_of (reached data mode pre) ∪ {[(date_key, upper mode)]})
           (reached data mode (mid ++ post)) /\
    (forall rk, rk ∈ (w1 ++ w2)%list -> snd rk <> (date_key, upper mode)) /\
    (date_key, upper mode) ∈ default ∅ (city_records st' !! city).
Proof.
  intros HR HF Hall Ha Hb Hdate Hkey Hnew.
  set (k := (date_key, upper mode)) in *.
  destruct (reached_complete_app data mode pre _ Hall) as (Hsplit1 & Hpre & Hrest).
  change (a :: mid ++ b :: post) with ([a] ++ mid ++ b :: post)%list in Hrest.
  destruct (reached_complete_app data mode [a] _ Hrest) as (_ & _ & Hrest2).
  destruct (reached_complete_app data mode mid _ Hrest2) as (Hsplit3 & Hmid & Hrest3).
  change (b :: post) with ([b] ++ post)%list in Hrest3.
  destruct (reached_complete_app data mode [b] _ Hrest3) as (_ & _ & Hpost).
  assert (Hkeyb : hash_key (Date rb) = Ok date_key) by (rewrite <- Hdate; exact Hkey).
  assert (Hreached : reached data mode (pre ++ a :: mid ++ b :: post) =
            (reached data mode pre ++ (ra, k) :: reached data mode mid ++
             (rb, k) :: reached data mode post)%list).
  { rewrite Hsplit1. f_equal.
    rewrite (reached_one data mode a _ ra date_key Ha Hkey). f_equal.
    rewrite Hsplit3. f_equal.
    apply (reached_one data mode b _ rb date_key Hb Hkeyb). }
  destruct (process_days_effect E data mode city path (pre ++ a :: mid ++ b :: post)
              st ledger content HR HF) as (res & st' & Hrun & HR' & HF' & Hok).
  rewrite (Hok Hall) in Hrun.
  exists st', (new_rows ledger (reached data mode pre)),
    (new_rows (ledger ∪ keys_of (reached data mode pre) ∪ {[k]})
       (reached data mode (mid ++ post))).
  split; [exact Hrun | ]. split; [ | split; [reflexivity | split; [reflexivity | split]]].
  - rewrite HF', lookup_insert_eq. do 2 f_equal.
    rewrite Hreached, new_rows_app.
    rewrite new_rows_unknown by exact Hnew.
    rewrite new_rows_app.
    rewrite (new_rows_known _ rb k) by set_solver.
    rewrite (reached_app_complete data mode mid post Hmid), new_rows_app.
    unfold records_of. rewrite !map_app. simpl. rewrite ?map_app. reflexivity.
  - intros rk Hrk Heq. apply elem_of_app in Hrk as [Hrk | Hrk].
    + apply new_rows_subset in Hrk as [Hrk _].
      apply Hnew. apply elem_of_union. right.
      apply elem_of_keys_of. exists rk. auto.
    + apply new_rows_subset in Hrk as [_ Hrk]. apply Hrk.
      apply elem_of_union. right. apply elem_of_singleton. exact Heq.
  - rewrite HR', lookup_insert_eq. simpl.
    rewrite Hreached, keys_of_app, keys_of_cons. simpl snd. set_solver.
Qed.

Lemma second_entry_of_a_date_is_skipped_witness :
  exists st',
    for_each ([] ++ sample_day (JStr "2024-01-01") :: [] ++
              sample_day (JStr "2024-01-01") :: [sample_day (JStr "2024-01-02")])
      (process_day steady repeated_date "forecast" "Pune" (city_file_path "Pune"))
      (snd ((create_csv_for_city "Pune" ;;
             load_city_records "Pune" (city_file_path "Pune")) initial_state))
      = (Ok tt, st') /\
    files st' !! city_file_path "Pune" =
      Some [header; stored_row "2024-01-01" "FORECAST"; stored_row "2024-01-02" "FORECAST"].
Proof.
  assert (Hnew : (KStr "2024-01-01", upper "forecast") ∉
                 (∅ : gset key) ∪ keys_of (reached repeated_date "forecast" [])).
  { intros H. apply elem_of_union in H as [H | H]; exact (not_elem_of_empty _ H). }
  destruct (second_entry_of_a_date_is_skipped steady repeated_date "forecast" "Pune"
              (city_file_path "Pune") [] [] [sample_day (JStr "2024-01-02")]
              (sample_day (JStr "2024-01-01")) (sample_day (JStr "2024-01-01"))
              _ _ (KStr "2024-01-01")
              (snd ((create_csv_for_city "Pune" ;;
                     load_city_records "Pune" (city_file_path "Pune")) initial_state))
              ∅ [header] eq_refl eq_refl eq_refl eq_refl eq_refl eq_refl eq_refl Hnew)
    as (st' & w1 & w2 & Hrun & Hfile & -> & -> & _).
  exists st'. split; [exact Hrun | exact Hfile].
Defined.

(** * Distinct rows *)

Lemma file_pairs_cons (fieldnames : list string) (records : csv_file) :
  file_pairs (fieldnames :: records) =
    map (pair_of_record fieldnames)
        (List.filter (fun r => negb (is_blank r)) records).
Proof. unfold file_pairs, dict_reader. rewrite map_map. reflexivity. Qed.

Lemma file_pairs_app (fieldnames : list string) (records extra : csv_file) :
  file_pairs (fieldnames :: records ++ extra) =
    (file_pairs (fieldnames :: records) ++
     map (pair_of_record fieldnames)
         (List.filter (fun r => negb (is_blank r)) extra))%list.
Proof. rewrite !file_pairs_cons, List.filter_app, map_app. reflexivity. Qed.

Lemma pair_of_written_record (E : environment) (r : row) :
  pair_of_record header (record_of_row E r)
    = (Some (csv_cell E (Date r)), Some (Type_ r)).
Proof. reflexivity. Qed.

Lemma filter_written_records (E : environment) (rks : list (row * key)) :
  List.filter (fun r => negb (is_blank r)) (records_of E rks) = records_of E rks.
Proof.
  induction rks as [ | rk rks IH]; simpl; [reflexivity | ]. rewrite IH. reflexivity.
Qed.

(** The days that are reached have a non-empty str for date, if all dates
    of the payload are such. *)
Lemma reached_dates (data : json) (mode : string) (days : list json) (r : row) (k : key) :
  forallb date_ok days = true ->
  (r, k) ∈ reached data mode days ->
  exists s, Date r = JStr s /\ s <> "" /\ k = (KStr s, upper mode).
Proof.
  intros Hok Hin.
  apply reached_built in Hin as (d & kd & Hd & Hrow & Hkey & ->).
  rewrite forallb_forall in Hok. apply list_elem_of_In in Hd.
  specialize (Hok d Hd). unfold date_ok in Hok.
  apply build_row_fields in Hrow as (Hdate & HT & _).
  rewrite Hdate in Hok.
  destruct (Date r) as [ | | | s | | ]; try discriminate Hok.
  exists s. split; [reflexivity | ].
  apply negb_true_iff, String.eqb_neq in Hok. split; [exact Hok | ].
  simpl in Hkey. injection Hkey as <-. rewrite HT. reflexivity.
Qed.

Lemma new_rows_NoDup (rks : list (row * key)) :
  forall ledger : gset key, NoDup (map snd (new_rows ledger rks)).
Proof.
  induction rks as [ | [r k] rks IH]; intros ledger; simpl.
  - apply NoDup_nil. exact I.
  - destruct (bool_decide_reflect (k ∈ ledger)) as [Hin | Hnotin]; [apply IH | ].
    simpl. apply NoDup_cons. split; [ | apply IH].
    intros Hk. apply list_elem_of_fmap in Hk as (rk & Heq & Hrk).
    apply new_rows_subset in Hrk as [_ Hrk]. apply Hrk.
    apply elem_of_union. right. apply elem_of_singleton. symmetry. exact Heq.
Qed.

Lemma replace_space_idempotent (s : string) :
  replace_space (replace_space s) = replace_space s.
Proof.
  induction s as [ | c s IH]; simpl; [reflexivity | ]. rewrite IH. f_equal.
  destruct (Ascii.eqb c " ") eqn:Hc; [reflexivity | ]. rewrite Hc. reflexivity.
Qed.

Lemma city_of_replaced (data : json) (city : string) :
  city_of data = Ok city -> replace_space city = city.
Proof.
  unfold city_of, result_bind. intros H.
  repeat step_result H.
  destruct v0; try discriminate H. simpl in H. injection H as <-.
  apply replace_space_idempotent.
Qed.

Lemma string_length_app (s1 s2 : string) :
  String.length (s1 +:+ s2) = (String.length s1 + String.length s2)%nat.
Proof.
  induction s1 as [ | c s1 IH]; [reflexivity | ].
  change (String c s1 +:+ s2) with (String c (s1 +:+ s2)).
  simpl. rewrite IH. reflexivity.
Qed.

Lemma append_inj_r (s1 s2 suffix : string) :
  s1 +:+ suffix = s2 +:+ suffix -> s1 = s2.
Proof.
  revert s2. induction s1 as [ | c s1 IH]; intros [ | c2 s2] H.
  - reflexivity.
  - apply (f_equal String.length) in H.
    rewrite !string_length_app in H. simpl in H. lia.
  - apply (f_equal String.length) in H.
    rewrite !string_length_app in H. simpl in H. lia.
  - change (String c (s1 +:+ suffix) = String c2 (s2 +:+ suffix)) in H.
    injection H as -> H. f_equal. apply IH. exact H.
Qed.

Lemma city_file_path_inj (c1 c2 : string) :
  city_file_path c1 = city_file_path c2 -> replace_space c1 = replace_space c2.
Proof.
  unfold city_file_path. intros H.
  apply (inj (String.app DATA_DIR)) in H.
  apply (inj (String.app "/")) in H.
  apply append_inj_r in H. exact H.
Qed.

Lemma tracks_with_header (path city : string)
    (R : gmap string (gset key)) (F : gmap string csv_file) :
  ledger_tracks path R F -> ledger_tracks path R (with_header F city).
Proof.
  intros (Ha & Hb & Hc). unfold with_header.
  assert (Hnew : ledger_tracks path R (<[city_file_path city := [header]]> F)).
  { destruct (decide (city_file_path city = path)) as [<- | Hne].
    - split; [ | split; [exact Hb | ]].
      + intros content. rewrite lookup_insert_eq. intros [= <-].
        split; [reflexivity | apply NoDup_nil; exact I].
      + intros c ledger content _ _. rewrite lookup_insert_eq. intros [= <-] p Hp.
        apply elem_of_nil in Hp. contradiction.
    - split; [ | split; [exact Hb | ]].
      + intros content. rewrite lookup_insert_ne by exact Hne. apply Ha.
      + intros c ledger content HR Hpath. rewrite lookup_insert_ne by exact Hne.
        apply (Hc c ledger content HR Hpath). }
  destruct (F !! city_file_path city) as [[ | record content] | ];
    [exact Hnew | exact (conj Ha (conj Hb Hc)) | exact Hnew].
Qed.

Lemma tracks_with_ledger (path city : string)
    (R : gmap string (gset key)) (F : gmap string csv_file) :
  replace_space city = city ->
  ledger_tracks path R F -> ledger_tracks path (with_ledger R F city) F.
Proof.
  intros Hrep (Ha & Hb & Hc). unfold with_ledger.
  destruct (R !! city) as [ledger0 | ] eqn:HR; [exact (conj Ha (conj Hb Hc)) | ].
  split; [exact Ha | split].
  - intros c ledger. destruct (decide (city = c)) as [<- | Hne].
    + intros _. exact Hrep.
    + rewrite lookup_insert_ne by exact Hne. apply Hb.
  - intros c ledger content. destruct (decide (city = c)) as [<- | Hne].
    + rewrite lookup_insert_eq. intros [= <-] Hpath HF p Hp Hall.
      rewrite Hpath, HF. apply elem_of_read_ledger. exists p. auto.
    + rewrite lookup_insert_ne by exact Hne. apply Hc.
Qed.

(** The pair read back from a written record is the key it was written
    under, when the date is a non-empty str and the mode is not empty. *)
Lemma written_pair (E : environment) (data : json) (mode : string) (days : list json)
    (rk : row * key) :
  forallb date_ok days = true ->
  upper mode <> "" ->
  rk ∈ reached data mode days ->
  all_truthy (pair_of_record header (record_of_row E (fst rk))) = true /\
  stored_key (pair_of_record header (record_of_row E (fst rk))) = snd rk.
Proof.
  intros Hok Hmode Hrk. destruct rk as [r k].
  pose proof (reached_dates data mode days r k Hok Hrk) as (s & Hdate & Hs & ->).
  apply reached_built in Hrk as (d & kd & _ & Hrow & _ & _).
  apply build_row_fields in Hrow as (_ & HT & _).
  rewrite pair_of_written_record. simpl fst. rewrite Hdate, HT. simpl csv_cell.
  split.
  - apply all_truthy_spec. exists s, (upper mode). auto.
  - reflexivity.
Qed.

Lemma tracks_loop (E : environment) (data : json) (mode path city : string)
    (days : list json) (R : gmap string (gset key)) (F : gmap string csv_file)
    (ledger : gset key) (content : csv_file) :
  forallb date_ok days = true ->
  upper mode <> "" ->
  replace_space city = city ->
  R !! city = Some ledger ->
  F !! city_file_path city = Some content ->
  content <> [] ->
  ledger_tracks path R F ->
  ledger_tracks path
    (<[city := ledger ∪ keys_of (reached data mode days)]> R)
    (<[city_file_path city :=
         (content ++ records_of E (new_rows ledger (reached data mode days)))%list]> F).
Proof.
  intros Hok Hmode Hrep HR HF Hne (Ha & Hb & Hc).
  assert (Hb' : forall c l,
            <[city := ledger ∪ keys_of (reached data mode days)]> R !! c = Some l ->
            replace_space c = c).
  { intros c l. destruct (decide (city = c)) as [<- | Hcne].
    - intros _. exact Hrep.
    - rewrite lookup_insert_ne by exact Hcne. apply Hb. }
  destruct (decide (city_file_path city = path)) as [<- | Hpath].
  - destruct (Ha content HF) as [Hstd Hdistinct].
    destruct content as [ | fieldnames rows]; [contradiction | ].
    simpl in Hstd. subst fieldnames.
    set (written := new_rows ledger (reached data mode days)).
    assert (Hpairs : file_pairs ((header :: rows) ++ records_of E written) =
              (file_pairs (header :: rows) ++
               map (fun rk => pair_of_record header (record_of_row E (fst rk))) written)%list).
    { rewrite <- app_comm_cons, file_pairs_app, filter_written_records.
      unfold records_of. rewrite map_map. reflexivity. }
    assert (Hwritten : forall p,
              p ∈ map (fun rk => pair_of_record header (record_of_row E (fst rk))) written ->
              exists rk, rk ∈ written /\ all_truthy p = true /\ stored_key p = snd rk).
    { intros p Hp. apply list_elem_of_fmap in Hp as (rk & -> & Hrk).
      exists rk. split; [exact Hrk | ].
      apply (written_pair E data mode days rk Hok Hmode).
      apply (new_rows_subset _ _ _ Hrk). }
    split; [ | split; [exact Hb' | ]].
    + intros content'. rewrite lookup_insert_eq. intros [= <-].
      split; [reflexivity | ].
      change (NoDup (file_pairs ((header :: rows) ++ records_of E written))).
      rewrite Hpairs. apply NoDup_app. split; [exact Hdistinct | split].
      * intros p Hold Hnew.
        destruct (Hwritten p Hnew) as (rk & Hrk & Hall & Hkey).
        apply new_rows_subset in Hrk as [_ Hfresh]. apply Hfresh.
        rewrite <- Hkey. apply (Hc city ledger (header :: rows) HR eq_refl HF p Hold Hall).
      * apply (NoDup_fmap_1 stored_key).
        change (NoDup (map stored_key
                  (map (fun rk => pair_of_record header (record_of_row E (fst rk))) written))).
        rewrite map_map.
        rewrite (List.map_ext_in _ snd); [apply new_rows_NoDup | ].
        intros rk Hrk. apply list_elem_of_In in Hrk.
        apply (written_pair E data mode days rk Hok Hmode).
        apply (new_rows_subset _ _ _ Hrk).
    + intros c l content'. rewrite lookup_insert_eq. intros Hl Hcpath [= <-].
      assert (c = city) as ->.
      { rewrite <- (Hb' c l Hl), <- Hrep. apply city_file_path_inj. exact Hcpath. }
      rewrite lookup_insert_eq in Hl. injection Hl as <-.
      intros p Hp Hall.
      change (p ∈ file_pairs ((header :: rows) ++ records_of E written)) in Hp.
      rewrite Hpairs in Hp. apply elem_of_app in Hp as [Hp | Hp].
      * apply elem_of_union. left.
        apply (Hc city ledger (header :: rows) HR eq_refl HF p Hp Hall).
      * destruct (Hwritten p Hp) as (rk & Hrk & _ & Hkey).
        apply elem_of_union. right. apply elem_of_keys_of. exists rk.
        split; [apply (new_rows_subset _ _ _ Hrk) | auto].
  - split; [ | split; [exact Hb' | ]].
    + intros content'. rewrite lookup_insert_ne by exact Hpath. apply Ha.
    + intros c l content'. destruct (decide (city = c)) as [<- | Hcne].
      * intros _ Hcpath. contradiction.
      * rewrite lookup_insert_ne by exact Hcne.
        rewrite lookup_insert_ne by exact Hpath. apply Hc.
Qed.

Lemma extract_effect_tracks (E : environment) (data : json) (mode path : string)
    (R : gmap string (gset key)) (F : gmap string csv_file) :
  dates_ok data = true ->
  upper mode <> "" ->
  ledger_tracks path R F ->
  ledger_tracks path (fst (extract_effect E data mode R F))
                     (snd (extract_effect E data mode R F)).
Proof.
  intros Hok Hmode H. unfold extract_effect, dates_ok in *.
  destruct (city_of data) as [city | ] eqn:Hcity; [ | exact H].
  pose proof (city_of_replaced data city Hcity) as Hrep.
  pose proof (tracks_with_ledger path city _ _ Hrep (tracks_with_header path city R F H))
    as H2.
  destruct (days_of data) as [days | ]; [ | exact H2].
  destruct (with_header_lookup F city) as (content & Hcontent & Hne).
  destruct (with_ledger_lookup R (with_header F city) city) as (ledger & Hledger).
  simpl. rewrite Hcontent, Hledger. simpl.
  apply tracks_loop; assumption.
Qed.

Lemma run_calls_tracks (E : environment) (path : string) (calls : list (json * string)) :
  Forall (fun c => dates_ok (fst c) = true /\ upper (snd c) <> "") calls ->
  forall st,
  ledger_tracks path (city_records st) (files st) ->
  exists st',
    run_calls E calls st = (Ok tt, st') /\
    ledger_tracks path (city_records st') (files st').
Proof.
  induction 1 as [ | [data mode] calls [Hok Hmode] _ IH]; intros st Htracks.
  - exists st. split; [reflexivity | exact Htracks].
  - destruct (extract_and_write_effect E data mode st) as (st1 & Hrun & Heff).
    pose proof (extract_effect_tracks E data mode path _ _ Hok Hmode Htracks) as H1.
    rewrite <- Heff in H1. simpl in H1.
    destruct (IH st1 H1) as (st' & Hrest & H').
    exists st'. split; [ | exact H'].
    unfold run_calls in *. simpl. unfold bind. rewrite Hrun. exact Hrest.
Qed.

Lemma upper_nonempty (mode : string) : mode <> "" -> upper mode <> "".
Proof. destruct mode; [contradiction | discriminate]. Qed.

Lemma call_ok_dates (E : environment) (c : json * string) :
  call_ok E c = true -> dates_ok (fst c) = true /\ upper (snd c) <> "".
Proof.
  unfold call_ok. rewrite !andb_true_iff.
  intros ((((Hdates & Hmode) & _) & _) & _). split; [exact Hdates | ].
  apply upper_nonempty. apply negb_true_iff, String.eqb_neq in Hmode. exact Hmode.
Qed.

(** A run keeps the rows of the file at [path] distinct, whatever ledger
    the process before it had. *)
Lemma run_process_keeps_rows_distinct (E : environment) (path : string)
    (calls : list (json * string)) (st : state) :
  Forall (fun c => call_ok E c = true) calls ->
  (forall content, files st !! path = Some content ->
     std_file content /\ distinct_rows content) ->
  forall content, files (run_process E calls st) !! path = Some content ->
    std_file content /\ distinct_rows content.
Proof.
  intros Hcalls Hfile. unfold run_process.
  destruct (run_calls_tracks E path calls) with (st := restart st)
    as (st' & Hrun & Ha & _).
  - eapply Forall_impl; [exact Hcalls | ]. intros c. apply call_ok_dates.
  - split; [exact Hfile | ].
    split; intros c ledger; simpl; rewrite lookup_empty; discriminate.
  - rewrite Hrun. exact Ha.
Qed.

(** C3 (amended).  Take a city file that is missing or empty, so that
    every row it will hold is one the writer wrote, and any number of
    runs over the data directory, each by a new extractor and each any
    sequence of [extract_and_write] calls whose city is a plain file name,
    whose dates are non-empty strings, whose mode is a non-empty ASCII
    string and whose cells [csv] reads back.  After every run (and so
    after every call, a run cut short being a run) the file starts with
    the header and no two of its rows share their (Date, Type) pair. *)
Theorem rows_stay_distinct_across_runs
    (E : environment) (path : string) (runs : list (list (json * string))) (st : state) :
  files st !! path = None \/ files st !! path = Some [] ->
  Forall (Forall (fun c => call_ok E c = true)) runs ->
  forall content, files (run_processes E runs st) !! path = Some content ->
    std_file content /\ distinct_rows content.
Proof.
  intros Hstart Hruns.
  assert (Hfile : forall content, files st !! path = Some content ->
                    std_file content /\ distinct_rows content).
  { intros content Hc. destruct Hstart as [H | H]; rewrite H in Hc; [discriminate | ].
    injection Hc as <-. split; [exact I | apply NoDup_nil; exact I]. }
  clear Hstart. revert st Hfile. unfold run_processes.
  induction Hruns as [ | calls runs Hcalls _ IH]; intros st Hfile; [exact Hfile | ].
  simpl. apply IH. apply run_process_keeps_rows_distinct; assumption.
Qed.

Lemma rows_stay_distinct_across_runs_witness :
  files initial_state !! city_file_path "Pune" = None /\
  Forall (Forall (fun c => call_ok steady c = true))
    [[(three_days, "forecast"); (repeated_date, "forecast")];
     [(three_days, "history"); (three_days, "forecast")]] /\
  (length <$> files (run_processes steady
                       [[(three_days, "forecast"); (repeated_date, "forecast")];
                        [(three_days, "history"); (three_days, "forecast")]]
                       initial_state) !! city_file_path "Pune") = Some 7%nat /\
  forall content,
    files (run_processes steady
             [[(three_days, "forecast"); (repeated_date, "forecast")];
              [(three_days, "history"); (three_days, "forecast")]]
             initial_state) !! city_file_path "Pune" = Some content ->
    std_file content /\ distinct_rows content.
Proof.
  assert (Hruns : Forall (Forall (fun c => call_ok steady c = true))
    [[(three_days, "forecast"); (repeated_date, "forecast")];
     [(three_days, "history"); (three_days, "forecast")]]).
  { repeat (apply Forall_cons; split);
      try (apply Forall_nil; exact I); vm_compute; reflexivity. }
  split; [reflexivity | ]. split; [exact Hruns | ]. split; [vm_compute; reflexivity | ].
  apply (rows_stay_distinct_across_runs steady (city_file_path "Pune") _ initial_state).
  - left. reflexivity.
  - exact Hruns.
Defined.

(** C3 as stated fails: a file with one row whose date is empty, and a
    payload with an empty date; the row is not in the ledger read from the
    file, so the call appends it again. *)
Lemma blank_date_row_is_duplicated :
  city_records (on_disk (city_file_path "Pune") [header; stored_row "" "FORECAST"]) = ∅ /\
  distinct_rows [header; stored_row "" "FORECAST"] /\
  files (snd (extract_and_write steady blank_date "forecast"
                (on_disk (city_file_path "Pune") [header; stored_row "" "FORECAST"])))
    !! city_file_path "Pune"
    = Some [header; stored_row "" "FORECAST"; stored_row "" "FORECAST"] /\
  ~ distinct_rows [header; stored_row "" "FORECAST"; stored_row "" "FORECAST"].
Proof.
  split; [reflexivity | ]. split; [ | split; [reflexivity | ]].
  - change (NoDup [(Some "", Some "FORECAST")]).
    apply NoDup_cons. split; [ | apply NoDup_nil; exact I].
    intros H. apply elem_of_nil in H. exact H.
  - change (~ NoDup [(Some "", Some "FORECAST"); (Some "", Some "FORECAST")]).
    intros H. apply NoDup_cons in H as [H _]. apply H.
    apply elem_of_cons. left. reflexivity.
Qed.

(** * Running the pipeline again *)

Lemma extends_refl (F : gmap string csv_file) : extends F F.
Proof. intros path. reflexivity. Qed.

Lemma extends_trans (F1 F2 F3 : gmap string csv_file) :
  extends F1 F2 -> extends F2 F3 -> extends F1 F3.
Proof. intros H12 H23 path. etransitivity; [apply H12 | apply H23]. Qed.

Lemma extract_effect_extends (E : environment) (data : json) (mode : string)
    (R : gmap string (gset key)) (F : gmap string csv_file) :
  extends F (snd (extract_effect E data mode R F)).
Proof.
  intros path.
  destruct (extract_effect_appends E data mode R F path) as (extra & -> & _).
  exists extra. reflexivity.
Qed.

Lemma extends_lookup (F F' : gmap string csv_file) (path : string) (content : csv_file) :
  extends F F' ->
  F !! path = Some content -> content <> [] ->
  exists extra, F' !! path = Some (content ++ extra)%list.
Proof.
  intros Hext HF Hne. destruct (Hext path) as [extra Hextra].
  unfold content_of in Hextra. rewrite HF in Hextra. simpl in Hextra.
  exists extra. destruct (F' !! path) as [content' | ]; simpl in Hextra.
  - rewrite Hextra. reflexivity.
  - destruct content; [contradiction | discriminate Hextra].
Qed.

Lemma read_ledger_mono (content extra : csv_file) :
  content <> [] -> read_ledger content ⊆ read_ledger (content ++ extra).
Proof.
  intros Hne k. rewrite !elem_of_read_ledger.
  destruct content as [ | fieldnames rows]; [contradiction | ].
  rewrite <- app_comm_cons, file_pairs_app.
  intros (p & Hp & H). exists p. split; [apply elem_of_app; auto | exact H].
Qed.

Lemma recorded_mono (F F' : gmap string csv_file) (data : json) (mode : string) :
  extends F F' -> recorded F data mode -> recorded F' data mode.
Proof.
  unfold recorded. intros Hext.
  destruct (city_of data) as [city | ]; [ | auto].
  intros (content & HF & Hne & Hkeys).
  destruct (extends_lookup F F' _ content Hext HF Hne) as (extra & HF').
  exists (content ++ extra)%list. split; [exact HF' | split].
  - destruct content; [contradiction | discriminate].
  - destruct (days_of data) as [days | ]; [ | exact I].
    etransitivity; [exact Hkeys | apply read_ledger_mono; exact Hne].
Qed.

Lemma new_rows_all_known (rks : list (row * key)) (ledger : gset key) :
  keys_of rks ⊆ ledger -> new_rows ledger rks = [].
Proof.
  induction rks as [ | [r k] rks IH]; intros Hsub; simpl; [reflexivity | ].
  rewrite keys_of_cons in Hsub. simpl in Hsub.
  rewrite bool_decide_eq_true_2 by set_solver.
  apply IH. set_solver.
Qed.

Lemma new_rows_covers (rks : list (row * key)) :
  forall (ledger : gset key) (k : key),
  k ∈ keys_of rks -> k ∈ ledger \/ k ∈ keys_of (new_rows ledger rks).
Proof.
  induction rks as [ | [r k0] rks IH]; intros ledger k Hk.
  - apply elem_of_keys_of in Hk as (rk & Hrk & _).
    apply elem_of_nil in Hrk. contradiction.
  - rewrite keys_of_cons in Hk. simpl in Hk. simpl new_rows.
    destruct (bool_decide_reflect (k0 ∈ ledger)) as [Hin | Hnotin].
    + apply elem_of_union in Hk as [Hk | Hk].
      * apply elem_of_singleton in Hk. subst k. auto.
      * apply IH. exact Hk.
    + rewrite keys_of_cons. simpl snd.
      apply elem_of_union in Hk as [Hk | Hk].
      * right. apply elem_of_union. auto.
      * destruct (IH (ledger ∪ {[k0]}) k Hk) as [H | H].
        -- apply elem_of_union in H as [H | H]; [auto | ].
           right. apply elem_of_union. auto.
        -- right. apply elem_of_union. auto.
Qed.

(** A second call with a payload that is already recorded changes no file
    and leaves the ledgers covering the files. *)
Lemma extract_effect_recorded (E : environment) (data : json) (mode : string)
    (R : gmap string (gset key)) (F : gmap string csv_file) :
  recorded F data mode ->
  ledger_covers R F ->
  snd (extract_effect E data mode R F) = F /\
  ledger_covers (fst (extract_effect E data mode R F)) F.
Proof.
  unfold recorded, extract_effect. intros Hrec Hcov.
  destruct (city_of data) as [city | ]; [ | auto].
  destruct Hrec as (content & HF & Hne & Hkeys).
  assert (Hsame : with_header F city = F).
  { unfold with_header. rewrite HF. destruct content; [contradiction | reflexivity]. }
  rewrite Hsame.
  assert (Hcov1 : ledger_covers (with_ledger R F city) F).
  { unfold with_ledger. destruct (R !! city) as [l0 | ] eqn:HR; [exact Hcov | ].
    intros c l content'. destruct (decide (city = c)) as [<- | Hcne].
    - rewrite lookup_insert_eq, HF. intros [= <-] [= <-]. reflexivity.
    - rewrite lookup_insert_ne by exact Hcne. apply Hcov. }
  destruct (days_of data) as [days | ]; [ | auto].
  destruct (with_ledger_lookup R F city) as (ledger & Hledger).
  rewrite Hledger, HF. simpl.
  assert (Hsub : keys_of (reached data mode days) ⊆ ledger).
  { etransitivity; [exact Hkeys | ]. apply (Hcov1 city ledger content Hledger HF). }
  rewrite (new_rows_all_known _ _ Hsub). unfold records_of. simpl. rewrite app_nil_r.
  rewrite (insert_id F _ _ HF).
  replace (ledger ∪ keys_of (reached data mode days)) with ledger
    by (rewrite union_comm_L; symmetry; apply subseteq_union_1_L; exact Hsub).
  rewrite (insert_id _ _ _ Hledger). auto.
Qed.

Lemma sound_with_header (city : string)
    (R : gmap string (gset key)) (F : gmap string csv_file) :
  ledger_sound R F -> ledger_sound R (with_header F city).
Proof.
  intros (Ha & Hs). unfold with_header.
  assert (Hnew : F !! city_file_path city = None \/ F !! city_file_path city = Some [] ->
                 ledger_sound R (<[city_file_path city := [header]]> F)).
  { intros Hold. split.
    - intros path content. destruct (decide (city_file_path city = path)) as [<- | Hne].
      + rewrite lookup_insert_eq. intros [= <-]. reflexivity.
      + rewrite lookup_insert_ne by exact Hne. apply Ha.
    - intros c ledger HR. destruct (Hs c ledger HR) as (content & HF & Hne & Hsub).
      exists content. split; [ | auto].
      rewrite lookup_insert_ne; [exact HF | ].
      intros Heq. rewrite Heq in Hold. rewrite HF in Hold.
      destruct Hold as [Hold | Hold]; [discriminate Hold | ].
      injection Hold as ->. contradiction. }
  destruct (F !! city_file_path city) as [[ | record content] | ];
    [apply Hnew; auto | exact (conj Ha Hs) | apply Hnew; auto].
Qed.

Lemma sound_with_ledger (city : string)
    (R : gmap string (gset key)) (F : gmap string csv_file) (content : csv_file) :
  F !! city_file_path city = Some content -> content <> [] ->
  ledger_sound R F -> ledger_sound (with_ledger R F city) F.
Proof.
  intros HF Hne (Ha & Hs). unfold with_ledger.
  destruct (R !! city) as [l0 | ] eqn:HR; [exact (conj Ha Hs) | ].
  split; [exact Ha | ].
  intros c ledger. destruct (decide (city = c)) as [<- | Hcne].
  - rewrite lookup_insert_eq. intros [= <-].
    exists content. rewrite HF. split; [reflexivity | split; [exact Hne | reflexivity]].
  - rewrite lookup_insert_ne by exact Hcne. apply Hs.
Qed.

Lemma sound_loop (E : environment) (data : json) (mode city : string)
    (days : list json) (R : gmap string (gset key)) (F : gmap string csv_file)
    (ledger : gset key) (content : csv_file) :
  forallb date_ok days = true ->
  upper mode <> "" ->
  R !! city = Some ledger ->
  F !! city_file_path city = Some content ->
  content <> [] ->
  ledger_sound R F ->
  ledger_sound
    (<[city := ledger ∪ keys_of (reached data mode days)]> R)
    (<[city_file_path city :=
         (content ++ records_of E (new_rows ledger (reached data mode days)))%list]> F) /\
  keys_of (reached data mode days) ⊆
    read_ledger (content ++ records_of E (new_rows ledger (reached data mode days))).
Proof.
  intros Hok Hmode HR HF Hne (Ha & Hs).
  pose proof (Ha _ _ HF) as Hstd.
  destruct content as [ | fieldnames rows]; [contradiction | ].
  simpl in Hstd. subst fieldnames.
  set (written := new_rows ledger (reached data mode days)).
  assert (Hold : ledger ⊆ read_ledger (header :: rows)).
  { destruct (Hs city ledger HR) as (content0 & HF0 & _ & Hsub).
    rewrite HF in HF0. injection HF0 as <-. exact Hsub. }
  assert (Hkeys : keys_of (reached data mode days) ⊆
                  read_ledger ((header :: rows) ++ records_of E written)).
  { intros k Hk.
    destruct (new_rows_covers _ ledger k Hk) as [HL | Hnew].
    - apply read_ledger_mono; [discriminate | ]. apply Hold. exact HL.
    - apply elem_of_keys_of in Hnew as (rk & Hrk & <-).
      apply elem_of_read_ledger.
      exists (pair_of_record header (record_of_row E (fst rk))).
      split.
      + rewrite <- app_comm_cons, file_pairs_app, filter_written_records.
        apply elem_of_app. right. unfold records_of. rewrite map_map.
        apply (list_elem_of_fmap_2
                 (fun rk0 => pair_of_record header (record_of_row E (fst rk0)))).
        exact Hrk.
      + apply (written_pair E data mode days rk Hok Hmode).
        apply (new_rows_subset _ _ _ Hrk). }
  split; [ | exact Hkeys].
  split.
  - intros path content'. destruct (decide (city_file_path city = path)) as [<- | Hpne].
    + rewrite lookup_insert_eq. intros [= <-]. reflexivity.
    + rewrite lookup_insert_ne by exact Hpne. apply Ha.
  - intros c l. destruct (decide (city = c)) as [<- | Hcne].
    + rewrite !lookup_insert_eq. intros [= <-].
      eexists. split; [reflexivity | split; [discriminate | ]].
      apply union_subseteq. split; [ | exact Hkeys].
      etransitivity; [exact Hold | apply read_ledger_mono; discriminate].
    + rewrite lookup_insert_ne by exact Hcne. intros Hl.
      destruct (Hs c l Hl) as (contentc & HFc & Hnec & Hsub).
      destruct (decide (city_file_path city = city_file_path c)) as [Heq | Hpne].
      * rewrite <- Heq in *. rewrite lookup_insert_eq.
        rewrite HF in HFc. injection HFc as <-.
        eexists. split; [reflexivity | split; [discriminate | ]].
        etransitivity; [exact Hsub | apply read_ledger_mono; discriminate].
      * rewrite lookup_insert_ne by exact Hpne.
        exists contentc. auto.
Qed.

(** A call keeps the ledgers sound and leaves its payload recorded. *)
Lemma extract_effect_sound (E : environment) (data : json) (mode : string)
    (R : gmap string (gset key)) (F : gmap string csv_file) :
  dates_ok data = true ->
  upper mode <> "" ->
  ledger_sound R F ->
  ledger_sound (fst (extract_effect E data mode R F))
               (snd (extract_effect E data mode R F)) /\
  recorded (snd (extract_effect E data mode R F)) data mode.
Proof.
  intros Hok Hmode Hsound. unfold extract_effect, recorded, dates_ok in *.
  destruct (city_of data) as [city | ]; [ | auto].
  destruct (with_header_lookup F city) as (content & Hcontent & Hne).
  pose proof (sound_with_ledger city R _ content Hcontent Hne
                (sound_with_header city R F Hsound)) as H2.
  destruct (days_of data) as [days | ].
  2:{ simpl. split; [exact H2 | ]. exists content. auto. }
  destruct (with_ledger_lookup R (with_header F city) city) as (ledger & Hledger).
  simpl. rewrite Hcontent, Hledger. simpl.
  destruct (sound_loop E data mode city days _ _ ledger content
              Hok Hmode Hledger Hcontent Hne H2) as [H3 Hkeys].
  split; [exact H3 | ].
  eexists. rewrite lookup_insert_eq. split; [reflexivity | split; [ | exact Hkeys]].
  destruct content; [contradiction | discriminate].
Qed.

(** One unit of work: announce, fetch, extract if there is data. *)
Lemma logged_unit_effect (E : environment) (msg : message) (url mode : string)
    (st : state) :
  exists st',
    (log INFO msg ;;
     data <- fetch_data E url ;;
     if truthy data then extract_and_write E data mode else ret tt) st = (Ok tt, st') /\
    (city_records st', files st') =
      (if truthy (fetched E (requests_made st) url)
       then extract_effect E (fetched E (requests_made st) url) mode
              (city_records st) (files st)
       else (city_records st, files st)).
Proof.
  set (st0 := snd (log INFO msg st)).
  destruct (fetch_data_one_request E url st0) as (st1 & Hfetch & _ & HF & HR & _).
  change (fetch_data E url st0 = (Ok (fetched E (requests_made st) url), st1)) in Hfetch.
  change (files st1 = files st) in HF.
  change (city_records st1 = city_records st) in HR.
  assert (Hsplit :
    (log INFO msg ;;
     data <- fetch_data E url ;;
     if truthy data then extract_and_write E data mode else ret tt) st =
    (if truthy (fetched E (requests_made st) url)
     then extract_and_write E (fetched E (requests_made st) url) mode
     else ret tt) st1).
  { unfold bind at 1. change (log INFO msg st) with (Ok tt, st0).
    unfold bind. rewrite Hfetch. reflexivity. }
  rewrite Hsplit.
  destruct (truthy (fetched E (requests_made st) url)).
  - destruct (extract_and_write_effect E (fetched E (requests_made st) url) mode st1)
      as (st' & Hrun & Heff).
    exists st'. split; [exact Hrun | ]. rewrite Heff, HF, HR. reflexivity.
  - exists st1. split; [reflexivity | ]. rewrite HF, HR. reflexivity.
Qed.

Lemma for_each_accumulate {A : Type} (body : A -> M unit)
    (I : state -> Prop) (Q : A -> gmap string csv_file -> Prop) :
  (forall x st, I st ->
     exists st', body x st = (Ok tt, st') /\ I st' /\
                 extends (files st) (files st') /\ Q x (files st')) ->
  (forall x F F', extends F F' -> Q x F -> Q x F') ->
  forall l st, I st ->
  exists st', for_each l body st = (Ok tt, st') /\ I st' /\
              extends (files st) (files st') /\
              forall x, x ∈ l -> Q x (files st').
Proof.
  intros Hbody Hstable l. induction l as [ | x l IH]; intros st HI.
  - exists st. split; [reflexivity | split; [exact HI | split; [apply extends_refl | ]]].
    intros x Hx. apply elem_of_nil in Hx. contradiction.
  - destruct (Hbody x st HI) as (st1 & Hrun1 & HI1 & Hext1 & HQ1).
    destruct (IH st1 HI1) as (st' & Hrun & HI' & Hext & HQ).
    exists st'. split; [ | split; [exact HI' | split]].
    + simpl. unfold bind. rewrite Hrun1. exact Hrun.
    + eapply extends_trans; eassumption.
    + intros y Hy. apply elem_of_cons in Hy as [-> | Hy].
      * apply (Hstable x _ _ Hext HQ1).
      * apply HQ. exact Hy.
Qed.

Lemma for_each_invariant {A : Type} (body : A -> M unit) (I : state -> Prop)
    (l : list A) :
  (forall x, x ∈ l -> forall st, I st ->
     exists st', body x st = (Ok tt, st') /\ I st') ->
  forall st, I st -> exists st', for_each l body st = (Ok tt, st') /\ I st'.
Proof.
  induction l as [ | x l IH]; intros Hbody st HI.
  - exists st. split; [reflexivity | exact HI].
  - destruct (Hbody x ltac:(apply elem_of_cons; auto) st HI) as (st1 & Hrun1 & HI1).
    destruct (IH (fun y Hy => Hbody y ltac:(apply elem_of_cons; auto)) st1 HI1)
      as (st' & Hrun & HI').
    exists st'. split; [ | exact HI'].
    simpl. unfold bind. rewrite Hrun1. exact Hrun.
Qed.

Lemma unit_done_stable (E : environment) (url mode : string)
    (F F' : gmap string csv_file) :
  extends F F' -> unit_done E url mode F -> unit_done E url mode F'.
Proof. intros Hext Hdone Ht. apply (recorded_mono F F' _ _ Hext). apply Hdone. exact Ht. Qed.

Section Rerun.

Variable E : environment.
Variable self : config.
Hypothesis fixed_responses : forall n m url, remote E n url = remote E m url.
Hypothesis response_dates :
  forall n url data, remote E n url = Ok data -> dates_ok data = true.

Lemma fetched_fixed (n : nat) (url : string) : fetched E n url = fetched E 0 url.
Proof. unfold fetched. rewrite (fixed_responses n 0%nat url). reflexivity. Qed.

Lemma fetched_dates (url : string) :
  truthy (fetched E 0 url) = true -> dates_ok (fetched E 0 url) = true.
Proof.
  unfold fetched. destruct (remote E 0 url) as [v | e] eqn:Hr.
  - intros _. apply (response_dates 0%nat url v Hr).
  - discriminate.
Qed.

(** First run: a unit of work keeps the ledgers sound, only appends, and
    leaves its payload recorded. *)
Lemma unit_first_run (msg : message) (url mode : string) (st : state) :
  upper mode <> "" ->
  ledger_sound (city_records st) (files st) ->
  exists st',
    (log INFO msg ;;
     data <- fetch_data E url ;;
     if truthy data then extract_and_write E data mode else ret tt) st = (Ok tt, st') /\
    ledger_sound (city_records st') (files st') /\
    extends (files st) (files st') /\
    unit_done E url mode (files st').
Proof.
  intros Hmode Hsound.
  destruct (logged_unit_effect E msg url mode st) as (st' & Hrun & Heff).
  exists st'. split; [exact Hrun | ].
  rewrite fetched_fixed in Heff. unfold unit_done.
  destruct (truthy (fetched E 0 url)) eqn:Ht.
  - pose proof (extract_effect_sound E _ mode _ _ (fetched_dates url Ht) Hmode Hsound)
      as [H1 H2].
    pose proof (extract_effect_extends E (fetched E 0 url) mode
                  (city_records st) (files st)) as H3.
    rewrite <- Heff in H1, H2, H3. simpl in H1, H2, H3.
    split; [exact H1 | split; [exact H3 | intros _; exact H2]].
  - injection Heff as -> ->.
    split; [exact Hsound | split; [apply extends_refl | discriminate]].
Qed.

(** Second run: a unit of work whose payload is recorded changes no file. *)
Lemma unit_second_run (msg : message) (url mode : string)
    (F1 : gmap string csv_file) (st : state) :
  unit_done E url mode F1 ->
  ledger_covers (city_records st) (files st) /\ files st = F1 ->
  exists st',
    (log INFO msg ;;
     data <- fetch_data E url ;;
     if truthy data then extract_and_write E data mode else ret tt) st = (Ok tt, st') /\
    (ledger_covers (city_records st') (files st') /\ files st' = F1).
Proof.
  intros Hdone [Hcov HF].
  destruct (logged_unit_effect E msg url mode st) as (st' & Hrun & Heff).
  exists st'. split; [exact Hrun | ].
  rewrite fetched_fixed in Heff.
  destruct (truthy (fetched E 0 url)) eqn:Ht.
  - specialize (Hdone Ht). rewrite <- HF in Hdone.
    destruct (extract_effect_recorded E _ mode _ _ Hdone Hcov) as [H1 H2].
    rewrite <- Heff in H1, H2. simpl in H1, H2.
    rewrite H1. split; [exact H2 | exact HF].
  - injection Heff as -> ->. split; [exact Hcov | exact HF].
Qed.

Lemma upper_forecast : upper "forecast" <> "".
Proof. discriminate. Qed.

Lemma upper_history : upper "history" <> "".
Proof. discriminate. Qed.

(** What the first run of [main] leaves behind. *)
Lemma main_first_run (st : state) :
  ledger_sound (city_records st) (files st) ->
  exists st',
    main E self st = (Ok tt, st') /\
    (forall city, city ∈ cities self ->
       unit_done E (build_forecast_url self city) "forecast" (files st')) /\
    (forall i, i ∈ py_range 1 4 ->
     forall city, city ∈ cities self ->
       unit_done E (build_history_url self city (strftime_ymd E (today E - i)))
         "history" (files st')).
Proof.
  intros Hsound.
  destruct (for_each_accumulate (forecast_step E self)
              (fun s => ledger_sound (city_records s) (files s))
              (fun city => unit_done E (build_forecast_url self city) "forecast"))
    with (l := cities self) (st := st) as (st1 & Hrun1 & Hsound1 & _ & Hdone1).
  { intros city s Hs.
    apply (unit_first_run (MsgFetchingForecast city) _ "forecast" s upper_forecast Hs). }
  { intros city F F'. apply unit_done_stable. }
  { exact Hsound. }
  destruct (for_each_accumulate
              (fun i => for_each (cities self)
                          (history_step E self (strftime_ymd E (today E - i))))
              (fun s => ledger_sound (city_records s) (files s))
              (fun i F => forall city, city ∈ cities self ->
                 unit_done E (build_history_url self city (strftime_ymd E (today E - i)))
                   "history" F))
    with (l := py_range 1 4) (st := st1) as (st2 & Hrun2 & _ & Hext2 & Hdone2).
  { intros i s Hs.
    apply (for_each_accumulate
             (history_step E self (strftime_ymd E (today E - i)))
             (fun s => ledger_sound (city_records s) (files s))
             (fun city => unit_done E
                (build_history_url self city (strftime_ymd E (today E - i))) "history"));
      [ | intros city F F'; apply unit_done_stable | exact Hs].
    intros city s0 Hs0.
    apply (unit_first_run (MsgFetchingHistory city (strftime_ymd E (today E - i)))
             _ "history" s0 upper_history Hs0). }
  { intros i F F' Hext HQ city Hcity. apply (unit_done_stable _ _ _ F F' Hext).
    apply HQ. exact Hcity. }
  { exact Hsound1. }
  exists st2. split; [ | split].
  - unfold main, run_forecast_etl, run_forecast_etl_over, run_history_etl, bind.
    rewrite Hrun1. exact Hrun2.
  - intros city Hcity. apply (unit_done_stable _ _ _ _ _ Hext2). apply Hdone1. exact Hcity.
  - exact Hdone2.
Qed.

(** A run of [main] over files that hold all it would write changes none. *)
Lemma main_second_run (F1 : gmap string csv_file) (st : state) :
  (forall city, city ∈ cities self ->
     unit_done E (build_forecast_url self city) "forecast" F1) ->
  (forall i, i ∈ py_range 1 4 ->
   forall city, city ∈ cities self ->
     unit_done E (build_history_url self city (strftime_ymd E (today E - i)))
       "history" F1) ->
  ledger_covers (city_records st) (files st) -> files st = F1 ->
  exists st', main E self st = (Ok tt, st') /\ files st' = F1.
Proof.
  intros Hdone1 Hdone2 Hcov HF.
  destruct (for_each_invariant (forecast_step E self)
              (fun s => ledger_covers (city_records s) (files s) /\ files s = F1)
              (cities self)) with (st := st) as (st1 & Hrun1 & HI1).
  { intros city Hcity s Hs.
    apply (unit_second_run (MsgFetchingForecast city) _ "forecast" F1 s
             (Hdone1 city Hcity) Hs). }
  { split; assumption. }
  destruct (for_each_invariant
              (fun i => for_each (cities self)
                          (history_step E self (strftime_ymd E (today E - i))))
              (fun s => ledger_covers (city_records s) (files s) /\ files s = F1)
              (py_range 1 4)) with (st := st1) as (st2 & Hrun2 & _ & HF2).
  { intros i Hi s Hs.
    apply (for_each_invariant
             (history_step E self (strftime_ymd E (today E - i)))
             (fun s => ledger_covers (city_records s) (files s) /\ files s = F1)
             (cities self)); [ | exact Hs].
    intros city Hcity s0 Hs0.
    apply (unit_second_run (MsgFetchingHistory city (strftime_ymd E (today E - i)))
             _ "history" F1 s0 (Hdone2 i Hi city Hcity) Hs0). }
  { exact HI1. }
  exists st2. split; [ | exact HF2].
  unfold main, run_forecast_etl, run_forecast_etl_over, run_history_etl, bind.
  rewrite Hrun1. exact Hrun2.
Qed.

End Rerun.

Lemma response_ok_dates (E : environment) (data : json) :
  response_ok E data = true -> dates_ok data = true.
Proof.
  unfold response_ok. rewrite !andb_true_iff. intros (((H & _) & _) & _). exact H.
Qed.

(** C4 (amended).  With responses that depend on the URL only, whose city
    is a plain file name, whose forecast days have non-empty strings for
    dates and whose cells [csv] reads back, and a data directory that
    holds no file but empty ones: a first run of the pipeline by a new
    extractor, then a second run by another new extractor over the files
    the first one left, both end without an exception and the second
    leaves every file as it found it. *)
Theorem rerun_appends_nothing (E : environment) (self : config) (st0 : state) :
  (forall n m url, remote E n url = remote E m url) ->
  (forall n url data, remote E n url = Ok data -> response_ok E data = true) ->
  city_records st0 = ∅ ->
  (forall path content, files st0 !! path = Some content -> content = []) ->
  exists st1 st2,
    main E self st0 = (Ok tt, st1) /\
    main E self (restart st1) = (Ok tt, st2) /\
    files st2 = files st1.
Proof.
  intros Hfixed Hresp Hfresh Hempty.
  assert (Hdates : forall n url data, remote E n url = Ok data -> dates_ok data = true).
  { intros n url data H. apply (response_ok_dates E). apply (Hresp n url data H). }
  destruct (main_first_run E self Hfixed Hdates st0) as (st1 & Hrun1 & Hdone1 & Hdone2).
  { split.
    - intros path content Hc. rewrite (Hempty path content Hc). exact I.
    - rewrite Hfresh. intros c l. rewrite lookup_empty. discriminate. }
  destruct (main_second_run E self Hfixed (files st1) (restart st1) Hdone1 Hdone2)
    as (st2 & Hrun2 & HF2).
  { intros c l content. simpl. rewrite lookup_empty. discriminate. }
  { reflexivity. }
  exists st1, st2. auto.
Qed.

Lemma rerun_appends_nothing_witness :
  (forall n m url, remote steady n url = remote steady m url) /\
  (forall n url data, remote steady n url = Ok data -> response_ok steady data = true) /\
  city_records initial_state = ∅ /\
  exists st1 st2,
    main steady pune_only initial_state = (Ok tt, st1) /\
    main steady pune_only (restart st1) = (Ok tt, st2) /\
    files st2 = files st1.
Proof.
  assert (Hresp : forall n url data,
            remote steady n url = Ok data -> response_ok steady data = true).
  { intros n url data H. injection H as <-. vm_compute. reflexivity. }
  split; [reflexivity | ]. split; [exact Hresp | ]. split; [reflexivity | ].
  apply (rerun_appends_nothing steady pune_only initial_state
           (fun _ _ _ => eq_refl) Hresp eq_refl).
  intros path content H. discriminate H.
Defined.

(** C4 as stated fails: when the forecast day comes with an empty date,
    the rows of the first run are not read back into the ledger of the
    second, which appends them again. *)
Lemma blank_date_rerun_appends :
  (forall n m url, remote blank_dates n url = remote blank_dates m url) /\
  files (snd (main blank_dates pune_only initial_state)) !! city_file_path "Pune"
    = Some [header; stored_row "" "FORECAST"; stored_row "" "HISTORY"] /\
  files (snd (main blank_dates pune_only
                (restart (snd (main blank_dates pune_only initial_state)))))
    !! city_file_path "Pune"
    = Some [header; stored_row "" "FORECAST"; stored_row "" "HISTORY";
            stored_row "" "FORECAST"; stored_row "" "HISTORY"] /\
  files (snd (main blank_dates pune_only
                (restart (snd (main blank_dates pune_only initial_state)))))
    <> files (snd (main blank_dates pune_only initial_state)).
Proof.
  split; [reflexivity | ]. split; [vm_compute; reflexivity | ].
  split; [vm_compute; reflexivity | ].
  intros H.
  apply (f_equal (fun F => length <$> F !! city_file_path "Pune")) in H.
  vm_compute in H. discriminate H.
Qed.

(** * More on the retry wrapper *)

Lemma retry_loop_recovers (E : environment) (url : string) (N : Z) (backoff : bool)
    (v : json) :
  forall (k : nat) (attempts : list Z) (d : Z) (st : state),
  (k < length attempts)%nat ->
  (forall j, (j < k)%nat ->
     exists e, remote E (requests_made st + j) url = Raise e /\ retryable e = true) ->
  remote E (requests_made st + k) url = Ok v ->
  exists st',
    retry_loop N backoff (http_get E url) attempts d st = (Ok v, st') /\
    requests_made st' = (requests_made st + k + 1)%nat /\
    sleeps (events st') = (sleeps (events st) ++ map (delay_at backoff d) (seq 0 k))%list /\
    files st' = files st /\ city_records st' = city_records st.
Proof.
  induction k as [ | k IH]; intros attempts d st Hlen Hfail Hok.
  - destruct attempts as [ | attempt rest]; [simpl in Hlen; lia | ].
    rewrite Nat.add_0_r in Hok.
    eexists. split.
    + simpl. unfold try_except, http_get. rewrite Hok. reflexivity.
    + simpl. rewrite sleeps_app, !app_nil_r. repeat split. lia.
  - destruct attempts as [ | attempt rest]; [simpl in Hlen; lia | ].
    destruct (Hfail 0%nat ltac:(lia)) as (e & He & Hretry).
    rewrite Nat.add_0_r in He.
    set (st2 :=
      {| city_records := city_records st; files := files st;
         requests_made := S (requests_made st);
         events := (((events st ++ [Request url]) ++
                     [Log WARNING (MsgRetrying attempt N e d)]) ++ [Sleep d])%list |}).
    destruct (IH rest (if backoff then d * 2 else d) st2) as (st' & Hrun & Hreq & Hsl & HF & HR).
    + simpl in Hlen. lia.
    + intros j Hj. destruct (Hfail (S j) ltac:(lia)) as (e' & He' & Hretry').
      exists e'. split; [ | exact Hretry'].
      simpl requests_made. rewrite <- He'. f_equal. lia.
    + simpl requests_made. rewrite <- Hok. f_equal. lia.
    + exists st'. split; [ | split; [ | split; [ | split]]].
      * simpl. unfold try_except, http_get. rewrite He, Hretry. exact Hrun.
      * rewrite Hreq. simpl. lia.
      * rewrite Hsl. simpl events. rewrite !sleeps_app. simpl.
        rewrite !app_nil_r, <- app_assoc. simpl. f_equal. f_equal.
        -- unfold delay_at. destruct backoff; simpl; lia.
        -- rewrite <- seq_shift, map_map. apply map_ext. intros j. apply delay_at_double.
      * exact HF.
      * exact HR.
Qed.

(** The wrapper around a bare request: when the first [k] requests fail
    with allow-listed errors and the next one is answered, with
    [k < no_of_retries], the answer is returned after [k + 1] requests and
    [k] sleeps of [initial_delay], twice that, and so on. *)
Theorem retry_recovers_from_transient_failures
    (E : environment) (url : string) (no_of_retries initial_delay : Z)
    (k : nat) (v : json) (st : state) :
  (k < Z.to_nat no_of_retries)%nat ->
  (forall j, (j < k)%nat ->
     exists e, remote E (requests_made st + j) url = Raise e /\ retryable e = true) ->
  remote E (requests_made st + k) url = Ok v ->
  exists st',
    retry no_of_retries initial_delay true (http_get E url) st = (Ok v, st') /\
    requests_made st' = (requests_made st + k + 1)%nat /\
    sleeps (events st') =
      (sleeps (events st) ++ map (fun j => initial_delay * 2 ^ Z.of_nat j) (seq 0 k))%list /\
    files st' = files st /\ city_records st' = city_records st.
Proof.
  intros Hk Hfail Hok. unfold retry.
  apply (retry_loop_recovers E url no_of_retries true v k); try assumption.
  rewrite py_range_length. exact Hk.
Qed.

Lemma retry_recovers_from_transient_failures_witness :
  exists st',
    retry 3 2 true (http_get flaky "u") initial_state = (Ok three_days, st') /\
    requests_made st' = 3%nat /\
    sleeps (events st') = [2; 4].
Proof.
  destruct (retry_recovers_from_transient_failures flaky "u" 3 2 2 three_days initial_state)
    as (st' & Hrun & Hreq & Hsl & _).
  - simpl. lia.
  - intros j Hj. exists ConnectTimeout. split; [ | reflexivity].
    destruct j as [ | [ | j]]; [reflexivity | reflexivity | lia].
  - reflexivity.
  - exists st'. split; [exact Hrun | split; [exact Hreq | exact Hsl]].
Defined.

(** An exception outside the allow-list passes through the wrapper at once:
    no sleep, no further attempt, no log line. *)
Theorem retry_lets_other_errors_through
    (no_of_retries initial_delay : Z) (backoff : bool) (func : M json)
    (e : exn) (st st1 : state) :
  0 < no_of_retries ->
  func st = (Raise e, st1) ->
  retryable e = false ->
  retry no_of_retries initial_delay backoff func st = (Raise e, st1).
Proof.
  intros Hpos Hcall Hclass. unfold retry, py_range.
  rewrite seqZ_cons by lia. simpl. unfold try_except. rewrite Hcall, Hclass. reflexivity.
Qed.

Lemma retry_lets_other_errors_through_witness :
  exists st1,
    http_get garbled "u" initial_state = (Raise JSONDecodeError, st1) /\
    retry 3 2 true (http_get garbled "u") initial_state = (Raise JSONDecodeError, st1) /\
    requests_made st1 = 1%nat /\ sleeps (events st1) = [].
Proof.
  eexists. split; [reflexivity | ]. split.
  - apply (retry_lets_other_errors_through 3 2 true (http_get garbled "u")
             JSONDecodeError initial_state); [lia | reflexivity | reflexivity].
  - split; reflexivity.
Defined.

(** With no attempt allowed the wrapped function is never called: the
    wrapper logs the exhaustion and returns [None]. *)
Theorem retry_without_attempts
    (no_of_retries initial_delay : Z) (backoff : bool) (func : M json) (st : state) :
  no_of_retries <= 0 ->
  retry no_of_retries initial_delay backoff func st =
    (Ok JNull,
     {| city_records := city_records st; files := files st;
        requests_made := requests_made st;
        events := (events st ++ [Log ERROR (MsgAllRetriesFailed no_of_retries)])%list |}).
Proof.
  intros Hle. unfold retry, py_range.
  replace (seqZ 1 (no_of_retries + 1 - 1)) with (@nil Z).
  - reflexivity.
  - unfold seqZ. replace (Z.to_nat (no_of_retries + 1 - 1)) with 0%nat by lia. reflexivity.
Qed.

Lemma retry_without_attempts_witness :
  retry 0 2 true (http_get steady "u") initial_state =
    (Ok JNull,
     {| city_records := ∅; files := ∅; requests_made := 0;
        events := [Log ERROR (MsgAllRetriesFailed 0)] |}).
Proof.
  apply (retry_without_attempts 0 2 true (http_get steady "u") initial_state). lia.
Defined.

(** Without backoff every sleep of an exhausted run lasts
    [initial_delay]. *)
Theorem retry_without_backoff_keeps_delay
    (no_of_retries initial_delay : Z) (func : M json) (st : state) :
  always_fails func ->
  exists st',
    retry no_of_retries initial_delay false func st = (Ok JNull, st') /\
    sleeps (events st') =
      (sleeps (events st) ++ replicate (Z.to_nat no_of_retries) initial_delay)%list.
Proof.
  intros Hfail. unfold retry.
  destruct (retry_loop_exhausted no_of_retries false func Hfail
              (py_range 1 (no_of_retries + 1)) initial_delay st) as (st' & Hrun & Hsl).
  exists st'. split; [exact Hrun | ].
  rewrite Hsl, py_range_length. f_equal.
  generalize (Z.to_nat no_of_retries) as n. intros n.
  generalize 0%nat as start.
  induction n as [ | n IH]; intros start; simpl; [reflexivity | ].
  rewrite IH. reflexivity.
Qed.

Lemma retry_without_backoff_keeps_delay_witness :
  exists st',
    retry 3 5 false always_timeout initial_state = (Ok JNull, st') /\
    sleeps (events st') = [5; 5; 5].
Proof.
  destruct (retry_without_backoff_keeps_delay 3 5 always_timeout initial_state
              always_timeout_fails) as (st' & Hrun & Hsl).
  exists st'. split; [exact Hrun | exact Hsl].
Defined.

(** * More on the fetcher *)

(** [fetch_data] contains every exception of the request, whatever its
    class: it returns [None] after one request, having logged the failure
    and the three lines of [exception_handling], without sleeping.  An
    answered request is returned as it is, with nothing logged. *)
Theorem fetch_data_contains_every_error (E : environment) (url : string) (st : state) :
  fetch_data E url st =
    match remote E (requests_made st) url with
    | Ok v =>
        (Ok v,
         {| city_records := city_records st; files := files st;
            requests_made := S (requests_made st);
            events := (events st ++ [Request url])%list |})
    | Raise e =>
        (Ok JNull,
         {| city_records := city_records st; files := files st;
            requests_made := S (requests_made st);
            events := (events st ++
                       [Request url; Log ERROR (MsgFetchFailed e);
                        Log ERROR (MsgExceptionType e);
                        Log ERROR (MsgExceptionMessage e);
                        Log ERROR (MsgStackTrace e)])%list |})
    end.
Proof.
  unfold fetch_data, retry. rewrite attempts_of_fetch_data.
  unfold retry_loop, try_except, fetch_data_body, try_except, http_get.
  destruct (remote E (requests_made st) url) as [v | e]; [reflexivity | ].
  unfold bind, log, emit, exception_handling, bind, log, emit, ret. simpl.
  rewrite <- !app_assoc. reflexivity.
Qed.

(** * The city file *)

(** A file that holds anything at all is left as it is, whether or not it
    starts with the header: the call changes nothing and logs nothing. *)
Theorem create_csv_for_city_leaves_nonempty_file
    (city : string) (st : state) (first : list string) (rest : csv_file) :
  files st !! city_file_path city = Some (first :: rest) ->
  create_csv_for_city city st = (Ok (city_file_path city), st).
Proof.
  intros HF. unfold create_csv_for_city, bind, get_state. rewrite HF. reflexivity.
Qed.

Lemma create_csv_for_city_leaves_nonempty_file_witness :
  files (on_disk (city_file_path "Pune") foreign_file) !! city_file_path "Pune"
    = Some (["when"; "what"] :: [["2024-01-01"; "rain"]]) /\
  create_csv_for_city "Pune" (on_disk (city_file_path "Pune") foreign_file)
    = (Ok (city_file_path "Pune"), on_disk (city_file_path "Pune") foreign_file).
Proof.
  split; [reflexivity | ].
  apply (create_csv_for_city_leaves_nonempty_file "Pune" _ ["when"; "what"]
           [["2024-01-01"; "rain"]]).
  reflexivity.
Defined.

(** For a city that is a plain file name: after a call the city's file
    exists and is not empty; a missing or empty file has become the header
    alone; no other file and no ledger has changed; and a second call does
    nothing. *)
Theorem create_csv_for_city_once (city : string) (st : state) :
  plain_name city = true ->
  exists st',
    create_csv_for_city city st = (Ok (city_file_path city), st') /\
    (exists first rest, files st' !! city_file_path city = Some (first :: rest)) /\
    (files st !! city_file_path city = None \/
     files st !! city_file_path city = Some [] ->
     files st' !! city_file_path city = Some [header]) /\
    (forall path, path <> city_file_path city -> files st' !! path = files st !! path) /\
    city_records st' = city_records st /\
    create_csv_for_city city st' = (Ok (city_file_path city), st').
Proof.
  intros _.
  destruct (create_csv_for_city_effect city st) as (st' & Hrun & HF & HR).
  exists st'. split; [exact Hrun | ].
  destruct (with_header_lookup (files st) city) as (content & Hcontent & Hne).
  rewrite <- HF in Hcontent.
  destruct content as [ | first rest]; [contradiction | ].
  split; [eauto | ]. split; [ | split; [ | split; [exact HR | ]]].
  - intros Hold. rewrite HF. unfold with_header.
    destruct Hold as [-> | ->]; apply lookup_insert_eq.
  - intros path Hpath. rewrite HF. unfold with_header.
    destruct (files st !! city_file_path city) as [[ | ? ?] | ];
      try reflexivity; apply lookup_insert_ne; congruence.
  - unfold create_csv_for_city, bind, get_state. rewrite Hcontent. reflexivity.
Qed.

Lemma create_csv_for_city_once_witness :
  plain_name "New Delhi" = true /\
  exists st',
    create_csv_for_city "New Delhi" initial_state = (Ok "weather_data/New_Delhi.csv", st') /\
    files st' !! "weather_data/New_Delhi.csv" = Some [header] /\
    create_csv_for_city "New Delhi" st' = (Ok "weather_data/New_Delhi.csv", st').
Proof.
  split; [reflexivity | ].
  destruct (create_csv_for_city_once "New Delhi" initial_state eq_refl)
    as (st' & Hrun & _ & Hheader & _ & _ & Hagain).
  exists st'. split; [exact Hrun | ]. split; [ | exact Hagain].
  apply Hheader. left. reflexivity.
Defined.

(** Two city names that are plain file names share a file exactly when
    they are equal once spaces are replaced by underscores. *)
Theorem same_file_iff_same_name_up_to_spaces (c1 c2 : string) :
  plain_name c1 = true -> plain_name c2 = true ->
  (city_file_path c1 = city_file_path c2 <-> replace_space c1 = replace_space c2).
Proof.
  intros _ _. split; [apply city_file_path_inj | ].
  intros H. unfold city_file_path. rewrite H. reflexivity.
Qed.

Lemma same_file_iff_same_name_up_to_spaces_witness :
  plain_name "New Delhi" = true /\ plain_name "New_Delhi" = true /\
  city_file_path "New Delhi" = city_file_path "New_Delhi".
Proof.
  split; [reflexivity | ]. split; [reflexivity | ].
  apply (same_file_iff_same_name_up_to_spaces "New Delhi" "New_Delhi" eq_refl eq_refl).
  reflexivity.
Defined.

(** * More on the writer *)

(** [extract_and_write] returns normally for every payload.  When the
    payload has no usable [location.name], files and ledger are left as
    they were and the trace gains the error line and the three lines of
    [exception_handling] for the exception raised at line 77. *)
Theorem extract_and_write_survives_bad_payload
    (E : environment) (data : json) (mode : string) (st : state) :
  (exists st', extract_and_write E data mode st = (Ok tt, st')) /\
  (forall e, city_of data = Raise e ->
     extract_and_write E data mode st =
       (Ok tt,
        {| city_records := city_records st; files := files st;
           requests_made := requests_made st;
           events := (events st ++
                      [Log ERROR (MsgExtractError mode e);
                       Log ERROR (MsgExceptionType e);
                       Log ERROR (MsgExceptionMessage e);
                       Log ERROR (MsgStackTrace e)])%list |})).
Proof.
  split.
  - destruct (extract_and_write_effect E data mode st) as (st' & Hrun & _). eauto.
  - intros e. unfold city_of, result_bind.
    unfold extract_and_write, try_except, extract_and_write_body.
    rewrite bind_lift.
    destruct (getitem data "location") as [location | e1].
    2:{ intros [= ->].
        unfold bind, log, emit, exception_handling, bind, log, emit. simpl.
        rewrite <- !app_assoc. reflexivity. }
    rewrite bind_lift.
    destruct (getitem location "name") as [name | e1].
    2:{ intros [= ->].
        unfold bind, log, emit, exception_handling, bind, log, emit. simpl.
        rewrite <- !app_assoc. reflexivity. }
    rewrite bind_lift.
    destruct (str_replace name) as [city | e1]; [discriminate | ].
    intros [= ->].
        unfold bind, log, emit, exception_handling, bind, log, emit. simpl.
        rewrite <- !app_assoc. reflexivity.
Qed.

Lemma extract_and_write_survives_bad_payload_witness :
  city_of no_location = Raise KeyError /\
  files (snd (extract_and_write steady no_location "forecast" initial_state)) = ∅ /\
  events (snd (extract_and_write steady no_location "forecast" initial_state)) =
    [Log ERROR (MsgExtractError "forecast" KeyError);
     Log ERROR (MsgExceptionType KeyError);
     Log ERROR (MsgExceptionMessage KeyError);
     Log ERROR (MsgStackTrace KeyError)].
Proof.
  split; [reflexivity | ].
  rewrite (proj2 (extract_and_write_survives_bad_payload steady no_location "forecast"
                    initial_state) KeyError eq_refl).
  split; reflexivity.
Defined.

Lemma extract_effect_ledger_grows (E : environment) (data : json) (mode : string)
    (R : gmap string (gset key)) (F : gmap string csv_file)
    (city : string) (ledger : gset key) :
  R !! city = Some ledger ->
  exists ledger',
    fst (extract_effect E data mode R F) !! city = Some ledger' /\ ledger ⊆ ledger'.
Proof.
  intros HR. unfold extract_effect.
  destruct (city_of data) as [c | ]; [ | exists ledger; auto].
  assert (H1 : with_ledger R (with_header F c) c !! city = Some ledger).
  { unfold with_ledger. destruct (R !! c) as [l0 | ] eqn:Hc; [exact HR | ].
    rewrite lookup_insert_ne; [exact HR | ]. intros <-. congruence. }
  destruct (days_of data) as [days | ]; [ | exists ledger; auto].
  simpl. destruct (decide (c = city)) as [-> | Hne].
  - rewrite lookup_insert_eq, H1. simpl. eexists. split; [reflexivity | ].
    apply union_subseteq_l.
  - rewrite lookup_insert_ne by exact Hne. exists ledger. auto.
Qed.

(** A city's ledger only grows: whatever key it holds before a call it
    holds after it. *)
Theorem ledger_only_grows
    (E : environment) (data : json) (mode : string) (st : state)
    (city : string) (ledger : gset key) :
  city_records st !! city = Some ledger ->
  exists ledger',
    city_records (snd (extract_and_write E data mode st)) !! city = Some ledger' /\
    ledger ⊆ ledger'.
Proof.
  intros HR.
  destruct (extract_and_write_effect E data mode st) as (st' & Hrun & Heff).
  rewrite Hrun. simpl.
  replace (city_records st') with
    (fst (extract_effect E data mode (city_records st) (files st)))
    by (rewrite <- Heff; reflexivity).
  apply extract_effect_ledger_grows. exact HR.
Qed.

Lemma ledger_only_grows_witness :
  exists ledger',
    city_records (snd (extract_and_write steady three_days "forecast" pune_known))
      !! "Pune" = Some ledger' /\
    ({[(KStr "2024-01-01", "FORECAST")]} : gset key) ⊆ ledger'.
Proof.
  apply (ledger_only_grows steady three_days "forecast" pune_known "Pune"). reflexivity.
Defined.

(** Whatever a call adds to a file has the eight fields of the header, and
    is the header itself or carries the upper-cased mode as its Type. *)
Theorem appended_records_have_the_header_shape
    (E : environment) (data : json) (mode : string) (st : state) (path : string) :
  exists extra,
    content_of (files (snd (extract_and_write E data mode st))) path
      = (content_of (files st) path ++ extra)%list /\
    Forall (fun record =>
              length record = length header /\
              (record = header \/ nth_error record 7 = Some (upper mode)))
           extra.
Proof.
  destruct (extract_and_write_effect E data mode st) as (st' & Hrun & Heff).
  rewrite Hrun. simpl.
  destruct (extract_effect_appends E data mode (city_records st) (files st) path)
    as (extra & Hextra & Hall).
  rewrite <- Heff in Hextra. simpl in Hextra.
  exists extra. split; [exact Hextra | ].
  eapply Forall_impl; [exact Hall | ].
  intros record [-> | (day_data & r & Hr & ->)]; [auto | ].
  split; [reflexivity | ]. right.
  apply build_row_fields in Hr as (_ & HT & _).
  unfold record_of_row. simpl. rewrite HT. reflexivity.
Qed.

(** The rows of the days before a malformed day are written, the days
    after it are not looked at: for a city that is a plain file name and
    has neither file nor ledger, cells [csv] reads back, and a list
    [good ++ bad :: rest] whose [good] days have distinct dates and whose
    [bad] day yields no row, the file ends up as the header and the
    records of [good]. *)
Theorem rows_before_a_malformed_day_are_kept
    (E : environment) (data : json) (mode city : string)
    (good rest : list json) (bad : json) (e : exn) (st : state) :
  city_of data = Ok city ->
  plain_name city = true ->
  cells_ok E mode data = true ->
  days_of data = Ok (good ++ bad :: rest)%list ->
  length (reached data mode good) = length good ->
  NoDup (map snd (reached data mode good)) ->
  build_row data mode bad = Raise e ->
  files st !! city_file_path city = None ->
  city_records st !! city = None ->
  exists st',
    extract_and_write E data mode st = (Ok tt, st') /\
    files st' !! city_file_path city =
      Some (header :: records_of E (reached data mode good)).
Proof.
  intros Hcity Hplain Hcells Hdays Hgood Hnodup Hbad HF HR.
  destruct (extract_and_write_effect E data mode st) as (st' & Hrun & Heff).
  exists st'. split; [exact Hrun | ].
  replace (files st') with
    (snd (extract_effect E data mode (city_records st) (files st)))
    by (rewrite <- Heff; reflexivity).
  unfold extract_effect. rewrite Hcity, Hdays. simpl snd.
  rewrite lookup_insert_eq. f_equal.
  unfold with_header. rewrite HF. rewrite lookup_insert_eq. simpl default.
  unfold with_ledger. rewrite HR. rewrite !lookup_insert_eq. simpl default.
  rewrite read_ledger_header.
  rewrite (reached_app_complete data mode good (bad :: rest) Hgood).
  simpl reached at 2. rewrite Hbad, app_nil_r.
  rewrite new_rows_fresh; [reflexivity | exact Hnodup | ].
  intros rk _. apply not_elem_of_empty.
Qed.

Lemma rows_before_a_malformed_day_are_kept_witness :
  build_row broken_middle "forecast" (JObj [("date", JStr "2024-01-02")]) = Raise KeyError /\
  exists st',
    extract_and_write steady broken_middle "forecast" initial_state = (Ok tt, st') /\
    files st' !! city_file_path "Pune" =
      Some [header; stored_row "2024-01-01" "FORECAST"].
Proof.
  split; [reflexivity | ].
  assert (Hnodup : NoDup (map snd (reached broken_middle "forecast"
                                     [sample_day (JStr "2024-01-01")]))).
  { simpl. apply NoDup_cons. split; [ | apply NoDup_nil; exact I].
    intros H. apply elem_of_nil in H. exact H. }
  destruct (rows_before_a_malformed_day_are_kept steady broken_middle "forecast" "Pune"
              [sample_day (JStr "2024-01-01")] [sample_day (JStr "2024-01-03")]
              (JObj [("date", JStr "2024-01-02")]) KeyError initial_state
              eq_refl eq_refl eq_refl eq_refl eq_refl Hnodup eq_refl eq_refl eq_refl)
    as (st' & Hrun & Hfile).
  exists st'. split; [exact Hrun | exact Hfile].
Defined.

(** A response that parses to a falsy value (an empty object or list, an
    empty string, zero, [false], [null]) is treated like a failed fetch:
    the forecast step does not extract, and files and ledger stay as they
    are. *)
Theorem falsy_response_is_no_data
    (E : environment) (self : config) (city : string) (st : state) :
  truthy (fetched E (requests_made st) (build_forecast_url self city)) = false ->
  exists st',
    forecast_step E self city st = (Ok tt, st') /\
    files st' = files st /\ city_records st' = city_records st.
Proof.
  intros Hfalse.
  destruct (logged_unit_effect E (MsgFetchingForecast city)
              (build_forecast_url self city) "forecast" st) as (st' & Hrun & Heff).
  rewrite Hfalse in Heff. injection Heff as HR HF.
  exists st'. split; [exact Hrun | auto].
Qed.

Lemma falsy_response_is_no_data_witness :
  remote empty_object 0 (build_forecast_url pune_only "Pune") = Ok (JObj []) /\
  exists st',
    forecast_step empty_object pune_only "Pune" initial_state = (Ok tt, st') /\
    files st' = files initial_state.
Proof.
  split; [reflexivity | ].
  destruct (falsy_response_is_no_data empty_object pune_only "Pune" initial_state eq_refl)
    as (st' & Hrun & HF & _).
  exists st'. split; [exact Hrun | exact HF].
Defined.

Lemma unit_only_appends (E : environment) (msg : message) (url mode : string)
    (F0 : gmap string csv_file) (st : state) :
  extends F0 (files st) ->
  exists st',
    (log INFO msg ;;
     data <- fetch_data E url ;;
     if truthy data then extract_and_write E data mode else ret tt) st = (Ok tt, st') /\
    extends F0 (files st').
Proof.
  intros Hext.
  destruct (logged_unit_effect E msg url mode st) as (st' & Hrun & Heff).
  exists st'. split; [exact Hrun | ].
  destruct (truthy (fetched E (requests_made st) url)).
  - replace (files st') with
      (snd (extract_effect E (fetched E (requests_made st) url) mode
              (city_records st) (files st)))
      by (rewrite <- Heff; reflexivity).
    eapply extends_trans; [exact Hext | apply extract_effect_extends].
  - injection Heff as _ ->. exact Hext.
Qed.

(** [main] ends without an exception in every environment, whatever the
    requests answer, and every file holds after it the records it held
    before, followed by what was appended. *)
Theorem main_only_appends (E : environment) (self : config) (st : state) :
  exists st',
    main E self st = (Ok tt, st') /\
    extends (files st) (files st').
Proof.
  destruct (for_each_invariant (forecast_step E self)
              (fun s => extends (files st) (files s))
              (cities self)) with (st := st) as (st1 & Hrun1 & HI1).
  { intros city _ s Hs.
    apply (unit_only_appends E (MsgFetchingForecast city) _ "forecast" (files st) s Hs). }
  { apply extends_refl. }
  destruct (for_each_invariant
              (fun i => for_each (cities self)
                          (history_step E self (strftime_ymd E (today E - i))))
              (fun s => extends (files st) (files s))
              (py_range 1 4)) with (st := st1) as (st2 & Hrun2 & HI2).
  { intros i _ s Hs.
    apply (for_each_invariant
             (history_step E self (strftime_ymd E (today E - i)))
             (fun s => extends (files st) (files s))
             (cities self)); [ | exact Hs].
    intros city _ s0 Hs0.
    apply (unit_only_appends E (MsgFetchingHistory city (strftime_ymd E (today E - i)))
             _ "history" (files st) s0 Hs0). }
  { exact HI1. }
  exists st2. split; [ | exact HI2].
  unfold main, run_forecast_etl, run_forecast_etl_over, run_history_etl, bind.
  rewrite Hrun1. exact Hrun2.
Qed.

(** * The requests of a run *)

Lemma requests_app (l1 l2 : list event) :
  requests (l1 ++ l2) = (requests l1 ++ requests l2)%list.
Proof.
  induction l1 as [ | [u | d | lvl msg] l1 IH]; simpl; rewrite ?IH; reflexivity.
Qed.

Lemma only_logs_refl (st : state) : only_logs st st.
Proof. repeat split. Qed.

Lemma only_logs_trans (st1 st2 st3 : state) :
  only_logs st1 st2 -> only_logs st2 st3 -> only_logs st1 st3.
Proof.
  intros (H1 & H2 & H3) (H4 & H5 & H6). repeat split; congruence.
Qed.

Lemma quiet_ret {A : Type} (a : A) : quiet (ret a).
Proof. intros st. apply only_logs_refl. Qed.

Lemma quiet_lift {A : Type} (r : result A) : quiet (lift r).
Proof. intros st. apply only_logs_refl. Qed.

Lemma quiet_get_state : quiet get_state.
Proof. intros st. apply only_logs_refl. Qed.

Lemma quiet_set_files (F : gmap string csv_file) : quiet (set_files F).
Proof. intros st. repeat split. Qed.

Lemma quiet_set_city_records (R : gmap string (gset key)) : quiet (set_city_records R).
Proof. intros st. repeat split. Qed.

Lemma quiet_log (lvl : level) (msg : message) : quiet (log lvl msg).
Proof.
  intros st. unfold only_logs. simpl.
  rewrite requests_app, sleeps_app. simpl. rewrite !app_nil_r. auto.
Qed.

Lemma quiet_bind {A B : Type} (m : M A) (f : A -> M B) :
  quiet m -> (forall a, quiet (f a)) -> quiet (bind m f).
Proof.
  intros Hm Hf st. unfold bind. specialize (Hm st).
  destruct (m st) as [[a | e] st1]; simpl in Hm.
  - eapply only_logs_trans; [exact Hm | apply Hf].
  - exact Hm.
Qed.

Lemma quiet_try_except {A : Type} (m : M A) (h : exn -> option (M A)) :
  quiet m -> (forall e handler, h e = Some handler -> quiet handler) ->
  quiet (try_except m h).
Proof.
  intros Hm Hh st. unfold try_except. specialize (Hm st).
  destruct (m st) as [[a | e] st1]; simpl in Hm; [exact Hm | ].
  destruct (h e) as [handler | ] eqn:He; [ | exact Hm].
  eapply only_logs_trans; [exact Hm | apply (Hh e handler He)].
Qed.

Lemma quiet_for_each {A : Type} (body : A -> M unit) (l : list A) :
  (forall x, quiet (body x)) -> quiet (for_each l body).
Proof.
  intros Hbody. induction l as [ | x l IH]; simpl.
  - apply quiet_ret.
  - apply quiet_bind; [apply Hbody | intros _; exact IH].
Qed.

Lemma quiet_exception_handling (e : exn) : quiet (exception_handling e).
Proof.
  unfold exception_handling.
  repeat (apply quiet_bind; [apply quiet_log | intros _]). apply quiet_log.
Qed.

Lemma quiet_create_csv_for_city (city : string) : quiet (create_csv_for_city city).
Proof.
  unfold create_csv_for_city.
  apply quiet_bind; [apply quiet_get_state | intros st0].
  apply quiet_bind; [ | intros _; apply quiet_ret].
  assert (Hnew : quiet (write_file (city_file_path city) [header] ;;
                        log INFO (MsgHeaderWritten city))).
  { apply quiet_bind; [ | intros _; apply quiet_log].
    unfold write_file. apply quiet_bind; [apply quiet_get_state | intros s].
    apply quiet_set_files. }
  destruct (files st0 !! city_file_path city) as [[ | ? ?] | ];
    [exact Hnew | apply quiet_ret | exact Hnew].
Qed.

Lemma quiet_load_city_records (city path : string) : quiet (load_city_records city path).
Proof.
  unfold load_city_records.
  apply quiet_bind; [apply quiet_get_state | intros st0].
  destruct (city_records st0 !! city); [apply quiet_ret | apply quiet_set_city_records].
Qed.

Lemma quiet_ledger_of (city : string) : quiet (ledger_of city).
Proof.
  unfold ledger_of. apply quiet_bind; [apply quiet_get_state | intros st0].
  destruct (city_records st0 !! city); [apply quiet_ret | apply quiet_lift].
Qed.

Lemma quiet_process_day (E : environment) (data : json) (mode city path : string)
    (day_data : json) :
  quiet (process_day E data mode city path day_data).
Proof.
  unfold process_day.
  apply quiet_bind; [apply quiet_lift | intros r].
  apply quiet_bind; [apply quiet_ledger_of | intros ledger].
  apply quiet_bind; [apply quiet_lift | intros date_key].
  destruct (bool_decide ((date_key, Type_ r) ∈ ledger)); [apply quiet_log | ].
  apply quiet_bind; [ | intros _].
  { unfold append_record. apply quiet_bind; [apply quiet_get_state | intros s].
    apply quiet_set_files. }
  apply quiet_bind; [apply quiet_log | intros _].
  apply quiet_bind; [apply quiet_ledger_of | intros ledger'].
  apply quiet_bind; [apply quiet_get_state | intros s].
  apply quiet_set_city_records.
Qed.

(** [extract_and_write] makes no request and does not sleep. *)
Lemma quiet_extract_and_write (E : environment) (data : json) (mode : string) :
  quiet (extract_and_write E data mode).
Proof.
  unfold extract_and_write. apply quiet_try_except.
  - unfold extract_and_write_body.
    apply quiet_bind; [apply quiet_lift | intros location].
    apply quiet_bind; [apply quiet_lift | intros name].
    apply quiet_bind; [apply quiet_lift | intros city].
    apply quiet_bind; [apply quiet_create_csv_for_city | intros path].
    apply quiet_bind; [apply quiet_load_city_records | intros _].
    apply quiet_bind; [apply quiet_lift | intros forecast].
    apply quiet_bind; [apply quiet_lift | intros forecast_days].
    apply quiet_bind; [apply quiet_lift | intros days].
    apply quiet_for_each. intros day_data. apply quiet_process_day.
  - intros e handler [= <-].
    apply quiet_bind; [apply quiet_log | intros _]. apply quiet_exception_handling.
Qed.

Lemma fetch_data_requests (E : environment) (url : string) (st : state) :
  exists st',
    fetch_data E url st = (Ok (fetched E (requests_made st) url), st') /\
    requests_made st' = S (requests_made st) /\
    requests (events st') = (requests (events st) ++ [url])%list /\
    sleeps (events st') = sleeps (events st).
Proof.
  unfold fetch_data, retry. rewrite attempts_of_fetch_data.
  unfold retry_loop, try_except, fetch_data_body, try_except, http_get, fetched.
  destruct (remote E (requests_made st) url) as [v | e].
  - eexists. split; [reflexivity | ]. simpl.
    rewrite requests_app, sleeps_app. simpl. rewrite app_nil_r. auto.
  - eexists. split; [reflexivity | ]. simpl.
    rewrite !requests_app, !sleeps_app. simpl. rewrite !app_nil_r. auto.
Qed.

(** One unit of work makes one request and does not sleep. *)
Lemma unit_requests (E : environment) (msg : message) (url mode : string) (st : state) :
  exists st',
    (log INFO msg ;;
     data <- fetch_data E url ;;
     if truthy data then extract_and_write E data mode else ret tt) st = (Ok tt, st') /\
    requests_made st' = (requests_made st + length [url])%nat /\
    requests (events st') = (requests (events st) ++ [url])%list /\
    sleeps (events st') = sleeps (events st).
Proof.
  set (st0 := snd (log INFO msg st)).
  destruct (quiet_log INFO msg st) as (Hn0 & Hr0 & Hs0). fold st0 in Hn0, Hr0, Hs0.
  destruct (fetch_data_requests E url st0) as (st1 & Hfetch & Hn1 & Hr1 & Hs1).
  assert (Hsplit :
    (log INFO msg ;;
     data <- fetch_data E url ;;
     if truthy data then extract_and_write E data mode else ret tt) st =
    (if truthy (fetched E (requests_made st0) url)
     then extract_and_write E (fetched E (requests_made st0) url) mode
     else ret tt) st1).
  { unfold bind at 1. change (log INFO msg st) with (Ok tt, st0).
    unfold bind. rewrite Hfetch. reflexivity. }
  rewrite Hsplit.
  assert (Hquiet : quiet (if truthy (fetched E (requests_made st0) url)
                          then extract_and_write E (fetched E (requests_made st0) url) mode
                          else ret tt)).
  { destruct (truthy _); [apply quiet_extract_and_write | apply quiet_ret]. }
  destruct (Hquiet st1) as (Hn2 & Hr2 & Hs2).
  assert (Hok : exists st',
            (if truthy (fetched E (requests_made st0) url)
             then extract_and_write E (fetched E (requests_made st0) url) mode
             else ret tt) st1 = (Ok tt, st')).
  { destruct (truthy _).
    - destruct (extract_and_write_effect E (fetched E (requests_made st0) url) mode st1)
        as (st' & Hrun & _). eauto.
    - eexists. reflexivity. }
  destruct Hok as (st' & Hrun). rewrite Hrun in Hn2, Hr2, Hs2. simpl in Hn2, Hr2, Hs2.
  exists st'. split; [exact Hrun | ]. simpl length.
  split; [lia | ]. split; congruence.
Qed.

Lemma for_each_requests {A : Type} (body : A -> M unit) (urls : A -> list string) :
  (forall x st,
     exists st', body x st = (Ok tt, st') /\
       requests_made st' = (requests_made st + length (urls x))%nat /\
       requests (events st') = (requests (events st) ++ urls x)%list /\
       sleeps (events st') = sleeps (events st)) ->
  forall l st,
  exists st', for_each l body st = (Ok tt, st') /\
    requests_made st' = (requests_made st + length (concat (map urls l)))%nat /\
    requests (events st') = (requests (events st) ++ concat (map urls l))%list /\
    sleeps (events st') = sleeps (events st).
Proof.
  intros Hbody l. induction l as [ | x l IH]; intros st.
  - exists st. simpl. rewrite app_nil_r. repeat split. lia.
  - destruct (Hbody x st) as (st1 & Hrun1 & Hn1 & Hr1 & Hs1).
    destruct (IH st1) as (st' & Hrun & Hn & Hr & Hs).
    exists st'. split; [ | split; [ | split]].
    + simpl. unfold bind. rewrite Hrun1. exact Hrun.
    + rewrite Hn, Hn1. simpl. rewrite length_app. lia.
    + rewrite Hr, Hr1. simpl. rewrite <- app_assoc. reflexivity.
    + congruence.
Qed.

Lemma concat_singletons {A B : Type} (f : A -> B) (l : list A) :
  concat (map (fun x => [f x]) l) = map f l.
Proof. induction l as [ | x l IH]; simpl; [reflexivity | rewrite IH; reflexivity]. Qed.

(** A run of [main] requests, in this order, the forecast of every
    configured city and then, for each of the three days before today, the
    history of every city: four requests per city, each made once, and no
    sleep at all, whatever the requests answer. *)
Theorem main_requests_each_url_once (E : environment) (self : config) (st : state) :
  exists st',
    main E self st = (Ok tt, st') /\
    requests (events st') = (requests (events st) ++ planned_requests E self)%list /\
    requests_made st' = (requests_made st + 4 * length (cities self))%nat /\
    sleeps (events st') = sleeps (events st).
Proof.
  destruct (for_each_requests (forecast_step E self)
              (fun city => [build_forecast_url self city]))
    with (l := cities self) (st := st) as (st1 & Hrun1 & Hn1 & Hr1 & Hs1).
  { intros city s.
    apply (unit_requests E (MsgFetchingForecast city) (build_forecast_url self city)
             "forecast" s). }
  destruct (for_each_requests
              (fun i => for_each (cities self)
                          (history_step E self (strftime_ymd E (today E - i))))
              (fun i => map (fun city =>
                               build_history_url self city (strftime_ymd E (today E - i)))
                            (cities self)))
    with (l := py_range 1 4) (st := st1) as (st2 & Hrun2 & Hn2 & Hr2 & Hs2).
  { intros i s.
    destruct (for_each_requests
                (history_step E self (strftime_ymd E (today E - i)))
                (fun city => [build_history_url self city (strftime_ymd E (today E - i))]))
      with (l := cities self) (st := s) as (s' & Hrun & Hn & Hr & Hs).
    { intros city s0.
      apply (unit_requests E (MsgFetchingHistory city (strftime_ymd E (today E - i)))
               (build_history_url self city (strftime_ymd E (today E - i))) "history" s0). }
    rewrite concat_singletons in Hn, Hr.
    exists s'. auto. }
  rewrite concat_singletons in Hn1, Hr1.
  change (py_range 1 4) with [1; 2; 3] in Hn2, Hr2.
  exists st2. split; [ | split; [ | split]].
  - unfold main, run_forecast_etl, run_forecast_etl_over, run_history_etl, bind.
    rewrite Hrun1. exact Hrun2.
  - rewrite Hr2, Hr1. unfold planned_requests. rewrite <- app_assoc. reflexivity.
  - rewrite Hn2, Hn1. simpl. rewrite !length_app, !length_map. simpl. lia.
  - congruence.
Qed.
